(** * Dify SSE proxy: the stream processor, embedded and verified

    A shallow embedding of
      - [models/dify_models.py]   (DifySSEEvent.parse_data),
      - [services/dify_client.py] (the line reassembly loop of
        execute_workflow_stream),
      - [services/sse_processor.py] (SSEProcessor),
      - [main.py]                 (the module-level SSEProcessor singleton),
    followed by the properties of the stream processor.

    Python values are modelled as follows.
      - [str] is a list of Unicode code points ([N]); [bytes] is a list of
        [Byte.byte].  The two differ, which matters for the chunk decoder.
      - The values produced by [json.loads] are the inductive type [json];
        a Python dict is an association list in insertion order, with
        assignment to an existing key updating in place.
      - A computation that may raise returns [res A]; a generator returns
        the list of the values it yields, in order.
      - Mutable instance state ([self._current_event]) and the locals of the
        processing loop are threaded explicitly. *)

From Stdlib Require Import List NArith ZArith Bool Lia.
From Stdlib Require Import Strings.String Strings.Ascii Strings.Byte.
From Stdlib Require DecimalString.
Import ListNotations.

Set Implicit Arguments.
Set Warnings "-register-all".

(* ================================================================== *)
(** ** Python strings *)

Module PyStr.

(** A code point, and a Python [str]. *)
Definition char := N.
Definition str := list char.

(** Literals: [u "data:"] is the [str] with those ASCII characters. *)
Definition u (s : string) : str :=
  List.map N_of_ascii (list_ascii_of_string s).

(** Literals of JSON text: as [u], with every apostrophe standing for a
    double quote, so [q "{'a':1}"] is the text of an object with key a. *)
Definition q (s : string) : str :=
  List.map (fun c => if (c =? 39)%N then 34%N else c) (u s).

Fixpoint str_eqb (a b : str) : bool :=
  match a, b with
  | [], [] => true
  | x :: a', y :: b' => N.eqb x y && str_eqb a' b'
  | _, _ => false
  end.

(** [s.startswith(p)] *)
Fixpoint startswith (p s : str) : bool :=
  match p, s with
  | [], _ => true
  | x :: p', y :: s' => N.eqb x y && startswith p' s'
  | _ :: _, [] => false
  end.

(** [str.isspace] on one code point (CPython's [_PyUnicode_IsWhitespace]). *)
Definition isspace (c : char) : bool :=
  ((9 <=? c) && (c <=? 13) || (28 <=? c) && (c <=? 32)
   || (c =? 133) || (c =? 160) || (c =? 5760)
   || (8192 <=? c) && (c <=? 8202)
   || (c =? 8232) || (c =? 8233) || (c =? 8239) || (c =? 8287)
   || (c =? 12288))%N.

Fixpoint lstrip (s : str) : str :=
  match s with
  | c :: s' => if isspace c then lstrip s' else s
  | [] => []
  end.

Definition rstrip (s : str) : str := rev (lstrip (rev s)).

(** [s.strip()] *)
Definition strip (s : str) : str := rstrip (lstrip s).

(** Truth value of a [str]: non-empty. *)
Definition nonempty (s : str) : bool :=
  match s with [] => false | _ :: _ => true end.

(** [sub in s] for strings: substring search. *)
Fixpoint contains (sub s : str) : bool :=
  startswith sub s ||
  match s with
  | [] => false
  | _ :: s' => contains sub s'
  end.

(** The newline character. *)
Definition LF : char := 10%N.

(** ['\n' in s] *)
Definition has_newline (s : str) : bool := existsb (N.eqb LF) s.

(** [s.split('\n', 1)] when ['\n' in s]: the text before the first
    newline and the text after it. *)
Fixpoint split_newline (s : str) : option (str * str) :=
  match s with
  | [] => None
  | c :: s' =>
      if N.eqb c LF then Some ([], s')
      else match split_newline s' with
           | Some (l, r) => Some (c :: l, r)
           | None => None
           end
  end.

End PyStr.
Import PyStr.

(* ================================================================== *)
(** ** Exceptions *)

(** The exception classes the modelled code can meet.  [str(e)] is the
    carried message.  The text of a [JSONDecodeError] is not modelled: every
    handler that catches one drops it (or only logs it). *)
Inductive exn : Type :=
| JSONDecodeError
| AttributeError (msg : str)
| TypeError (msg : str)
| KeyError (msg : str)
| Exception (msg : str)
| RecursionError (msg : str)
| ValueError (msg : str).

(** A computation that returns [a] or raises [e]. *)
Inductive res (A : Type) : Type :=
| Ok (a : A)
| Raise (e : exn).
Arguments Ok {A} a.
Arguments Raise {A} e.

Definition bind {A B : Type} (m : res A) (k : A -> res B) : res B :=
  match m with
  | Ok a => k a
  | Raise e => Raise e
  end.

Notation "x <- m ;; k" := (bind m (fun x => k))
  (at level 61, m at next level, right associativity).

(** [str(e)] *)
Definition exn_str (e : exn) : str :=
  match e with
  | JSONDecodeError => []
  | AttributeError m | TypeError m | KeyError m | Exception m => m
  | RecursionError m | ValueError m => m
  end.


(* ================================================================== *)
(** ** JSON values and [json.loads] *)

Module Json.

(** What [json.loads] builds.  A float keeps the decimal it was read from,
    [(-1)^neg * mant * 10^exp10]; only its truth value is ever inspected. *)
Inductive json : Type :=
| JNull
| JBool (b : bool)
| JInt (z : Z)
| JFloat (neg : bool) (mant : N) (exp10 : Z)
| JNaN
| JInf (neg : bool)
| JString (s : str)
| JArray (l : list json)
| JObject (d : list (str * json)).

(** *** dict operations *)

Definition dict := list (str * json).

(** [d.get(k)], [None] when the key is absent. *)
Fixpoint dict_get (d : dict) (k : str) : option json :=
  match d with
  | [] => None
  | (k', v) :: d' => if str_eqb k k' then Some v else dict_get d' k
  end.

(** [d.get(k, default)] *)
Definition dict_get_default (d : dict) (k : str) (default : json) : json :=
  match dict_get d k with
  | Some v => v
  | None => default
  end.

(** [d[k] = v]: an existing key keeps its place and takes the new value *)
Fixpoint dict_set (d : dict) (k : str) (v : json) : dict :=
  match d with
  | [] => [(k, v)]
  | (k', v') :: d' =>
      if str_eqb k k' then (k', v) :: d' else (k', v') :: dict_set d' k v
  end.

(** *** truth value *)

(** A float read from [mant * 10^exp10] is [0.0] when the mantissa is
    zero or the value rounds to zero, i.e. is at most [2^-1075]. *)
Definition float_is_zero (mant : N) (exp10 : Z) : bool :=
  (mant =? 0)%N ||
  (if (exp10 <? 0)%Z
   then (Z.of_N mant * 2 ^ 1075 <=? 10 ^ (- exp10))%Z
   else false).

(** [bool(v)] *)
Definition truthy (v : json) : bool :=
  match v with
  | JNull => false
  | JBool b => b
  | JInt z => negb (z =? 0)%Z
  | JFloat _ m e => negb (float_is_zero m e)
  | JNaN => true
  | JInf _ => true
  | JString s => nonempty s
  | JArray l => match l with [] => false | _ => true end
  | JObject d => match d with [] => false | _ => true end
  end.

(** [type(v).__name__] *)
Definition type_name (v : json) : str :=
  match v with
  | JNull => u "NoneType"
  | JBool _ => u "bool"
  | JInt _ => u "int"
  | JFloat _ _ _ | JNaN | JInf _ => u "float"
  | JString _ => u "str"
  | JArray _ => u "list"
  | JObject _ => u "dict"
  end.

(** [v == s] for a Python string [s] *)
Definition eq_str (v : json) (s : str) : bool :=
  match v with
  | JString t => str_eqb t s
  | _ => false
  end.

(** *** the decoder *)

Definition ch (a : ascii) : char := N_of_ascii a.

(** The double quote character. *)
Definition QUOTE : char := 34%N.

(** JSON whitespace: space, tab, line feed, carriage return *)
Definition is_ws (c : char) : bool :=
  ((c =? 32) || (c =? 9) || (c =? 10) || (c =? 13))%N.

Fixpoint skip_ws (s : str) : str :=
  match s with
  | c :: s' => if is_ws c then skip_ws s' else s
  | [] => []
  end.

Definition digit_val (c : char) : option N :=
  if ((48 <=? c) && (c <=? 57))%N then Some (c - 48)%N else None.

Definition hex_val (c : char) : option N :=
  if ((48 <=? c) && (c <=? 57))%N then Some (c - 48)%N
  else if ((97 <=? c) && (c <=? 102))%N then Some (c - 87)%N
  else if ((65 <=? c) && (c <=? 70))%N then Some (c - 55)%N
  else None.

Definition hex4 (a b c d : char) : option N :=
  match hex_val a, hex_val b, hex_val c, hex_val d with
  | Some x, Some y, Some z, Some w => Some (((x * 16 + y) * 16 + z) * 16 + w)%N
  | _, _, _, _ => None
  end.

Definition is_high_surrogate (c : N) : bool := ((55296 <=? c) && (c <=? 56319))%N.
Definition is_low_surrogate (c : N) : bool := ((56320 <=? c) && (c <=? 57343))%N.
Definition join_surrogates (hi lo : N) : N :=
  (65536 + (hi - 55296) * 1024 + (lo - 56320))%N.

(** The character a one-letter escape stands for. *)
Definition simple_escape (e : char) : option char :=
  if (e =? QUOTE)%N then Some (QUOTE)
  else if (e =? ch "\")%N then Some (ch "\")
  else if (e =? ch "/")%N then Some (ch "/")
  else if (e =? ch "b")%N then Some 8%N
  else if (e =? ch "f")%N then Some 12%N
  else if (e =? ch "n")%N then Some 10%N
  else if (e =? ch "r")%N then Some 13%N
  else if (e =? ch "t")%N then Some 9%N
  else None.

(** The body of a string literal, after its opening quote: the decoded
    text and what follows the closing quote.  [acc] is the text so far,
    reversed.  Control characters are refused (strict mode). *)
Fixpoint scanstring (acc : str) (s : str) : option (str * str) :=
  match s with
  | [] => None
  | c :: r =>
      if (c =? QUOTE)%N then Some (rev acc, r)
      else if (c =? ch "\")%N then
        match r with
        | [] => None
        | e :: r1 =>
            if (e =? ch "u")%N then
              match r1 with
              | a :: b :: c1 :: d :: r2 =>
                  match hex4 a b c1 d with
                  | None => None
                  | Some cu =>
                      if is_high_surrogate cu then
                        match r2 with
                        | b1 :: b2 :: a2 :: b3 :: c2 :: d2 :: r3 =>
                            if ((b1 =? ch "\") && (b2 =? ch "u"))%N then
                              match hex4 a2 b3 c2 d2 with
                              | None => None
                              | Some lo =>
                                  if is_low_surrogate lo
                                  then scanstring (join_surrogates cu lo :: acc) r3
                                  else scanstring (cu :: acc) r2
                              end
                            else scanstring (cu :: acc) r2
                        | _ => scanstring (cu :: acc) r2
                        end
                      else scanstring (cu :: acc) r2
                  end
              | _ => None
              end
            else
              match simple_escape e with
              | Some x => scanstring (x :: acc) r1
              | None => None
              end
        end
      else if (c <? 32)%N then None
      else scanstring (c :: acc) r
  end.

(** A run of decimal digits: its value continuing [acc], how many digits
    were read, and the rest. *)
Fixpoint scan_digits (acc : N) (s : str) : N * nat * str :=
  match s with
  | c :: r =>
      match digit_val c with
      | Some d =>
          let '(v, n, rest) := scan_digits (acc * 10 + d)%N r in (v, S n, rest)
      | None => (acc, 0, s)
      end
  | [] => (acc, 0, [])
  end.

(** The integer part: a single zero, or digits not starting with zero *)
Definition scan_int (s : str) : option (N * str) :=
  match s with
  | c :: r =>
      if (c =? 48)%N then Some (0%N, r)
      else match digit_val c with
           | Some _ => let '(v, _, rest) := scan_digits 0 s in Some (v, rest)
           | None => None
           end
  | [] => None
  end.

(** The optional fraction, a dot and at least one digit: the value continuing [m], their
    number, and the rest; the input is left alone when there is none. *)
Definition scan_frac (m : N) (s : str) : option (N * nat * str) :=
  match s with
  | c :: r =>
      if (c =? ch ".")%N then
        match scan_digits m r with
        | (_, O, _) => None
        | (v, S n, rest) => Some (v, S n, rest)
        end
      else None
  | [] => None
  end.

(** The optional exponent: e or E, optional sign, at least one digit *)
Definition scan_exp (s : str) : option (Z * str) :=
  match s with
  | c :: r =>
      if ((c =? ch "e") || (c =? ch "E"))%N then
        let '(sgn, r1) :=
          match r with
          | c1 :: r' =>
              if (c1 =? ch "-")%N then ((-1)%Z, r')
              else if (c1 =? ch "+")%N then (1%Z, r')
              else (1%Z, r)
          | [] => (1%Z, r)
          end in
        match scan_digits 0 r1 with
        | (_, O, _) => None
        | (v, S _, rest) => Some ((sgn * Z.of_N v)%Z, rest)
        end
      else None
  | [] => None
  end.

(** A number: optional minus sign, integer part, optional fraction,
    optional exponent.  It is an [int] when it has neither fraction nor
    exponent, a [float] otherwise. *)
Definition scan_number (s : str) : option (json * str) :=
  let '(neg, s1) :=
    match s with
    | c :: r => if (c =? ch "-")%N then (true, r) else (false, s)
    | [] => (false, s)
    end in
  match scan_int s1 with
  | None => None
  | Some (i, s2) =>
      let '(m, nfrac, s3, has_frac) :=
        match scan_frac i s2 with
        | Some (v, n, rest) => (v, n, rest, true)
        | None => (i, O, s2, false)
        end in
      match scan_exp s3 with
      | Some (e, s4) => Some (JFloat neg m (e - Z.of_nat nfrac), s4)
      | None =>
          if has_frac then Some (JFloat neg m (- Z.of_nat nfrac), s3)
          else Some (JInt (if neg then - Z.of_N i else Z.of_N i), s3)
      end
  end.

(** The limits of the interpreter that [json.loads] meets.  An integer
    literal of more than [int_max_str_digits] digits is refused with a
    [ValueError] (the default of [sys.set_int_max_str_digits]).  Entering an
    array or an object when [recursion_limit] of them are already open is
    refused with a [RecursionError]; the depth really left depends on the
    frames on the stack when [json.loads] is called and on the version of
    the interpreter; the default limit is taken here, and only the
    examples on concrete texts below depend on the number. *)
Definition int_max_str_digits : nat := 4300.
Definition recursion_limit : nat := 1000.

(** [f"{n}"] for a count *)
Definition show_nat (n : nat) : str :=
  u (DecimalString.NilEmpty.string_of_uint (Nat.to_uint n)).

Definition int_too_long (digits : nat) : exn :=
  ValueError
    (u "Exceeds the limit (4300 digits) for integer string conversion: value has "
       ++ show_nat digits
       ++ u " digits; use sys.set_int_max_str_digits() to increase the limit").

Definition too_deep (what : string) : exn :=
  RecursionError
    (u "maximum recursion depth exceeded while decoding a JSON " ++ u what
       ++ u " from a unicode string").

(** The number of digits of the integer literal that starts [s] and is
    followed by [rest]: its length without the sign. *)
Definition literal_digits (s rest : str) : nat :=
  List.length s - List.length rest
  - match s with
    | c :: _ => if (c =? ch "-")%N then 1 else 0
    | [] => 0
    end.

(** Result of the recursive scanner: a value and the text after it; a
    refusal of the text ([JSONDecodeError]); another exception; [PFuel]
    marks an exhausted budget and is shown below never to be returned by
    [json_loads]. *)
Inductive pres : Type :=
| POk (v : json) (rest : str)
| PErr
| PRaise (e : exn)
| PFuel.

(** A number read by [scan_number]: an integer literal that is too long
    raises. *)
Definition check_number (s : str) (v : json) (rest : str) : pres :=
  match v with
  | JInt _ =>
      if int_max_str_digits <? literal_digits s rest
      then PRaise (int_too_long (literal_digits s rest))
      else POk v rest
  | _ => POk v rest
  end.

(** [depth] is the number of arrays and objects open around [s]. *)
Fixpoint scan_once (fuel depth : nat) (s : str) {struct fuel} : pres :=
  match fuel with
  | O => PFuel
  | S f =>
      match s with
      | [] => PErr
      | c :: r =>
          if (c =? QUOTE)%N then
            match scanstring [] r with
            | Some (t, rest) => POk (JString t) rest
            | None => PErr
            end
          else if (c =? ch "{")%N then
            if recursion_limit <=? depth then PRaise (too_deep "object")
            else
              match skip_ws r with
              | c1 :: r1 =>
                  if (c1 =? ch "}")%N then POk (JObject []) r1
                  else parse_object f (S depth) [] (c1 :: r1)
              | [] => PErr
              end
          else if (c =? ch "[")%N then
            if recursion_limit <=? depth then PRaise (too_deep "array")
            else
              match skip_ws r with
              | c1 :: r1 =>
                  if (c1 =? ch "]")%N then POk (JArray []) r1
                  else parse_array f (S depth) [] (c1 :: r1)
              | [] => PErr
              end
          else if startswith (u "null") s then POk JNull (skipn 4 s)
          else if startswith (u "true") s then POk (JBool true) (skipn 4 s)
          else if startswith (u "false") s then POk (JBool false) (skipn 5 s)
          else if startswith (u "NaN") s then POk JNaN (skipn 3 s)
          else if startswith (u "Infinity") s then POk (JInf false) (skipn 8 s)
          else if startswith (u "-Infinity") s then POk (JInf true) (skipn 9 s)
          else match scan_number s with
               | Some (v, rest) => check_number s v rest
               | None => PErr
               end
      end
  end

(** The elements of an array, from the first character of an element;
    [acc] holds the elements read so far, reversed. *)
with parse_array (fuel depth : nat) (acc : list json) (s : str) {struct fuel} : pres :=
  match fuel with
  | O => PFuel
  | S f =>
      match scan_once f depth s with
      | POk v rest =>
          match skip_ws rest with
          | c :: r =>
              if (c =? ch "]")%N then POk (JArray (rev (v :: acc))) r
              else if (c =? ch ",")%N then parse_array f depth (v :: acc) (skip_ws r)
              else PErr
          | [] => PErr
          end
      | PErr => PErr
      | PRaise e => PRaise e
      | PFuel => PFuel
      end
  end

(** The members of an object, from the opening quote of a key; [acc] is
    the dict built so far. *)
with parse_object (fuel depth : nat) (acc : dict) (s : str) {struct fuel} : pres :=
  match fuel with
  | O => PFuel
  | S f =>
      match s with
      | c :: r =>
          if (c =? QUOTE)%N then
            match scanstring [] r with
            | None => PErr
            | Some (k, rest) =>
                match skip_ws rest with
                | c1 :: r1 =>
                    if (c1 =? ch ":")%N then
                      match scan_once f depth (skip_ws r1) with
                      | POk v rest2 =>
                          match skip_ws rest2 with
                          | c2 :: r2 =>
                              if (c2 =? ch "}")%N
                              then POk (JObject (dict_set acc k v)) r2
                              else if (c2 =? ch ",")%N
                              then parse_object f depth (dict_set acc k v) (skip_ws r2)
                              else PErr
                          | [] => PErr
                          end
                      | PErr => PErr
                      | PRaise e => PRaise e
                      | PFuel => PFuel
                      end
                    else PErr
                | [] => PErr
                end
            end
          else PErr
      | [] => PErr
      end
  end.

(** Budget that always suffices for a text [s]. *)
Definition fuel_for (s : str) : nat := S (2 * List.length s).

(** [json.loads(s)]: one value with optional whitespace around it; a
    leading byte-order mark is refused.  A refusal of the text is
    [JSONDecodeError]; an integer literal that is too long raises
    [ValueError] and nesting that is too deep raises [RecursionError], at
    the place of the text where the scanner meets them. *)
Definition json_loads (s : str) : res json :=
  match s with
  | 65279%N :: _ => Raise JSONDecodeError
  | _ =>
      match scan_once (fuel_for s) 0 (skip_ws s) with
      | POk v rest =>
          match skip_ws rest with
          | [] => Ok v
          | _ :: _ => Raise JSONDecodeError
          end
      | PRaise e => Raise e
      | PErr | PFuel => Raise JSONDecodeError
      end
  end.

End Json.
Import Json.


(* ================================================================== *)
(** ** services/dify_client.py: bytes to lines *)

Module DifyClient.

Definition bytes := list byte.

Definition is_cont (c : N) : bool := ((128 <=? c) && (c <=? 191))%N.

(** Well-formed two, three and four byte sequences of UTF-8. *)
Definition valid2 (c0 c1 : N) : bool :=
  ((194 <=? c0) && (c0 <=? 223))%N && is_cont c1.

Definition valid3 (c0 c1 c2 : N) : bool :=
  (((c0 =? 224) && (160 <=? c1) && (c1 <=? 191))
   || ((225 <=? c0) && (c0 <=? 236) && is_cont c1)
   || ((c0 =? 237) && (128 <=? c1) && (c1 <=? 159))
   || ((238 <=? c0) && (c0 <=? 239) && is_cont c1))%N
  && is_cont c2.

Definition valid4 (c0 c1 c2 c3 : N) : bool :=
  (((c0 =? 240) && (144 <=? c1) && (c1 <=? 191))
   || ((241 <=? c0) && (c0 <=? 243) && is_cont c1)
   || ((c0 =? 244) && (128 <=? c1) && (c1 <=? 143)))%N
  && is_cont c2 && is_cont c3.

(** [chunk.decode('utf-8', errors='ignore')]: every well-formed sequence
    gives its code point; a byte that starts none is dropped, and so is a
    sequence cut short by the end of the chunk. *)
Fixpoint decode_utf8_ignore (bs : bytes) : str :=
  match bs with
  | [] => []
  | b0 :: r =>
      let c0 := Byte.to_N b0 in
      if (c0 <? 128)%N then c0 :: decode_utf8_ignore r
      else
        match r with
        | [] => decode_utf8_ignore r
        | b1 :: r1 =>
            let c1 := Byte.to_N b1 in
            if valid2 c0 c1
            then ((c0 - 192) * 64 + (c1 - 128))%N :: decode_utf8_ignore r1
            else
              match r1 with
              | [] => decode_utf8_ignore r
              | b2 :: r2 =>
                  let c2 := Byte.to_N b2 in
                  if valid3 c0 c1 c2
                  then (((c0 - 224) * 64 + (c1 - 128)) * 64 + (c2 - 128))%N
                         :: decode_utf8_ignore r2
                  else
                    match r2 with
                    | [] => decode_utf8_ignore r
                    | b3 :: r3 =>
                        let c3 := Byte.to_N b3 in
                        if valid4 c0 c1 c2 c3
                        then ((((c0 - 240) * 64 + (c1 - 128)) * 64
                               + (c2 - 128)) * 64 + (c3 - 128))%N
                               :: decode_utf8_ignore r3
                        else decode_utf8_ignore r
                    end
              end
        end
  end.

(** One line to yield: nothing when it is empty after [strip]. *)
Definition yield_line (line : str) : list str :=
  if nonempty (strip line) then [strip line] else [].

(** [while '\n' in buffer: line, buffer = buffer.split('\n', 1); ...]:
    the lines yielded and the buffer left.  [fuel] bounds the number of
    iterations; the length of the buffer is always enough. *)
Fixpoint drain_lines (fuel : nat) (buffer : str) : list str * str :=
  match fuel with
  | O => ([], buffer)
  | S f =>
      match split_newline buffer with
      | None => ([], buffer)
      | Some (line, rest) =>
          let '(ls, b) := drain_lines f rest in
          (yield_line line ++ ls, b)
      end
  end.

(** The body of [async for chunk in response.aiter_bytes()] and the
    flush of the buffer after it. *)
Fixpoint reassemble (buffer : str) (chunks : list bytes) : list str :=
  match chunks with
  | [] => yield_line buffer
  | chunk :: cs =>
      match chunk with
      | [] => reassemble buffer cs
      | _ :: _ =>
          let buffer := buffer ++ decode_utf8_ignore chunk in
          let '(ls, b) := drain_lines (List.length buffer) buffer in
          ls ++ reassemble b cs
      end
  end.

(** The lines [execute_workflow_stream] yields for the chunks of a
    response with status 200. *)
Definition execute_workflow_stream (chunks : list bytes) : list str :=
  reassemble [] chunks.

(** The lines of a text read in one go, by a single scan: the complete
    lines, trimmed, the empty ones left out, and the unterminated rest.
    [cur] is the part of the current line read so far.  The loop of
    [reassemble] is compared with it below. *)
Fixpoint text_lines (cur : str) (s : str) : list str * str :=
  match s with
  | [] => ([], cur)
  | c :: r =>
      if N.eqb c LF
      then let '(ls, b) := text_lines [] r in (yield_line cur ++ ls, b)
      else text_lines (cur ++ [c]) r
  end.

(** A chunk of ASCII bytes only. *)
Definition ascii_chunk (bs : bytes) : bool :=
  forallb (fun x => (Byte.to_N x <? 128)%N) bs.

End DifyClient.

(* ================================================================== *)
(** ** Operations of Python objects used by the processor *)

Module PyObj.

Definition no_attribute_get (v : json) : str :=
  u "'" ++ type_name v ++ u "' object has no attribute 'get'".

(** [v.get(k, default)]: only a dict has the method. *)
Definition py_get (v : json) (k : str) (default : json) : res json :=
  match v with
  | JObject d => Ok (dict_get_default d k default)
  | _ => Raise (AttributeError (no_attribute_get v))
  end.

(** [k in v] for a string [k]: key of a dict, element of a list,
    substring of a string; other values are not containers. *)
Definition py_in (k : str) (v : json) : res bool :=
  match v with
  | JObject d => Ok (match dict_get d k with Some _ => true | None => false end)
  | JArray l => Ok (existsb (fun x => eq_str x k) l)
  | JString s => Ok (contains k s)
  | _ => Raise (TypeError (u "argument of type '" ++ type_name v
                             ++ u "' is not iterable"))
  end.

(** [v[k]] for a string [k] *)
Definition py_getitem (v : json) (k : str) : res json :=
  match v with
  | JObject d =>
      match dict_get d k with
      | Some x => Ok x
      | None => Raise (KeyError (u "'" ++ k ++ u "'"))
      end
  | JArray _ => Raise (TypeError (u "list indices must be integers or slices, not str"))
  | JString _ => Raise (TypeError (u "string indices must be integers"))
  | _ => Raise (TypeError (u "'" ++ type_name v ++ u "' object is not subscriptable"))
  end.

(** [x or default] *)
Definition py_or (x default : json) : json :=
  if truthy x then x else default.

End PyObj.
Import PyObj.

(* ================================================================== *)
(** ** models/dify_models.py *)

(** class DifySSEEvent *)
Record DifySSEEvent : Type := { event : str; data : str }.

(** DifySSEEvent.parse_data: only [json.JSONDecodeError] is caught. *)
Definition parse_data (self : DifySSEEvent) : res json :=
  match json_loads (data self) with
  | Ok v => Ok v
  | Raise JSONDecodeError => Ok (JObject [(u "raw_data", JString (data self))])
  | Raise e => Raise e
  end.

(* ================================================================== *)
(** ** services/sse_processor.py *)

(** The text [json.dumps(v)] yields, kept symbolic: the value serialized
    and the [ensure_ascii] flag of the call. *)
Inductive json_text : Type :=
| Dumps (ensure_ascii : bool) (v : json).

(** An [asyncio] task running [_send_keepalive]: still sleeping;
    finished (the sleep ran out); asked to stop by [cancel()], which the
    event loop has not delivered yet; stopped by a delivered cancellation
    (as a cancelled task when it had not started, as a task that returned
    when it was sleeping, since [_send_keepalive] swallows the
    [CancelledError]: the code only ever asks [done()]). *)
Inductive task : Type := Pending | Finished | Cancelling | Cancelled.

(** [task.done()]: false until the event loop has run the task to its
    end, also when its cancellation was requested. *)
Definition done (t : task) : bool :=
  match t with
  | Pending | Cancelling => false
  | Finished | Cancelled => true
  end.

(** [task.cancel()]: a request, which a task that is done ignores. *)
Definition cancel (t : task) : task :=
  match t with
  | Pending => Cancelling
  | Finished => Finished
  | Cancelling => Cancelling
  | Cancelled => Cancelled
  end.

(** The instance state of an [SSEProcessor]: the attribute
    [_current_event], absent until the first [event:] line. *)
Record SSEProcessor : Type := { _current_event : option str }.

(** [SSEProcessor()] *)
Definition new_SSEProcessor : SSEProcessor := {| _current_event := None |}.

(** SSEProcessor._parse_sse_line, with the instance before and after. *)
Definition _parse_sse_line (self : SSEProcessor) (line : str)
  : SSEProcessor * option DifySSEEvent :=
  let line := strip line in
  if negb (nonempty line) || startswith (u ":") line then (self, None)
  else if startswith (u "event:") line then
    ({| _current_event := Some (strip (skipn 6 line)) |}, None)
  else if startswith (u "data:") line then
    let data_content := strip (skipn 5 line) in
    if negb (nonempty data_content) then (self, None)
    else
      let event_type :=
        match _current_event self with
        | Some e => e
        | None => u "message"
        end in
      (self, Some {| event := event_type; data := data_content |})
  else (self, None).

(** SSEProcessor._is_workflow_finished_event *)
Definition _is_workflow_finished_event (ev : DifySSEEvent) : bool :=
  match (data <- parse_data ev ;;
         e <- py_get data (u "event") JNull ;;
         Ok (eq_str e (u "workflow_finished"))) with
  | Ok b => b
  | Raise _ => false
  end.

(** Lines 107-117 of [_extract_workflow_result]: the [result] of the
    output from the raw value. *)
Definition parse_result (result_raw : json) : res json :=
  match result_raw with
  | JString s =>
      if nonempty (strip s) then
        match json_loads s with
        | Ok v => Ok v
        | Raise JSONDecodeError => Ok (JObject [(u "text", result_raw)])
        | Raise e => Raise e
        end
      else if truthy result_raw then Ok result_raw
      else Ok JNull
  | _ => if truthy result_raw then Ok result_raw else Ok JNull
  end.

(** SSEProcessor._extract_workflow_result: [None] when anything raises. *)
Definition _extract_workflow_result (ev : DifySSEEvent) : option json :=
  match (data <- parse_data ev ;;
         workflow_run_id <- py_get data (u "workflow_run_id") (JString []) ;;
         task_id <- py_get data (u "task_id") (JString []) ;;
         event_data <- py_get data (u "data") (JObject []) ;;
         status <- py_get event_data (u "status") (JString (u "unknown")) ;;
         outputs <- py_get event_data (u "outputs") (JObject []) ;;
         result_raw <- py_get outputs (u "result") (JString []) ;;
         parsed_result <- parse_result result_raw ;;
         Ok (JObject [(u "workflow_run_id", workflow_run_id);
                      (u "task_id", task_id);
                      (u "status", status);
                      (u "result", parsed_result);
                      (u "event_type", JString (u "workflow_finished"))])) with
  | Ok r => Some r
  | Raise _ => None
  end.

(** SSEProcessor._create_error_response.  [None] is [JNull]. *)
Definition _create_error_response (error_msg workflow_run_id task_id : json) : json :=
  JObject [(u "workflow_run_id", py_or workflow_run_id (JString (u "unknown")));
           (u "task_id", py_or task_id (JString (u "unknown")));
           (u "status", JString (u "error"));
           (u "error", error_msg);
           (u "event_type", JString (u "error"))].

(** The locals of [process_dify_stream] that live across iterations, and
    the number of keep-alive tasks created so far. *)
Record locals : Type := {
  workflow_run_id : json;
  task_id : json;
  keepalive_task : task;
  tasks_created : nat
}.

Definition set_ids (st : locals) (w t : json) : locals :=
  {| workflow_run_id := w; task_id := t;
     keepalive_task := keepalive_task st; tasks_created := tasks_created st |}.

Definition set_task (st : locals) (k : task) : locals :=
  {| workflow_run_id := workflow_run_id st; task_id := task_id st;
     keepalive_task := k; tasks_created := tasks_created st |}.

(** [keepalive_task = asyncio.create_task(self._send_keepalive())] *)
Definition create_task (st : locals) : locals :=
  {| workflow_run_id := workflow_run_id st; task_id := task_id st;
     keepalive_task := Pending; tasks_created := S (tasks_created st) |}.

(** Lines 195-202: the identifiers after looking at one record.  Whatever
    raises is swallowed, keeping the assignments made before it. *)
Definition update_ids (ev : DifySSEEvent) (st : locals) : locals :=
  match parse_data ev with
  | Raise _ => st
  | Ok data =>
      match py_in (u "workflow_run_id") data with
      | Raise _ => st
      | Ok has_w =>
          match (if has_w then py_getitem data (u "workflow_run_id")
                 else Ok (workflow_run_id st)) with
          | Raise _ => st
          | Ok w =>
              let st1 := set_ids st w (task_id st) in
              match py_in (u "task_id") data with
              | Raise _ => st1
              | Ok has_t =>
                  match (if has_t then py_getitem data (u "task_id")
                         else Ok (task_id st1)) with
                  | Raise _ => st1
                  | Ok t => set_ids st1 w t
                  end
              end
          end
      end
  end.

(** The condition of line 205.  It is evaluated outside any handler. *)
Definition is_error_event (ev : DifySSEEvent) : res bool :=
  if str_eqb (event ev) (u "error") then Ok true
  else
    data <- parse_data ev ;;
    e <- py_get data (u "event") JNull ;;
    Ok (eq_str e (u "error")).

(** Lines 207-211: the response to an error record *)
Definition error_event_response (ev : DifySSEEvent) (st : locals) : res json :=
  error_data <- parse_data ev ;;
  d <- py_get error_data (u "data") (JObject []) ;;
  error_msg <- py_get d (u "error") (JString (u "Unknown error from Dify API")) ;;
  Ok (_create_error_response error_msg (workflow_run_id st) (task_id st)).

(** How one pass through the body of the loop ends. *)
Inductive control : Type :=
| Next (self : SSEProcessor) (st : locals)
| YieldReturn (y : json_text) (self : SSEProcessor) (st : locals)
| Escapes (e : exn) (self : SSEProcessor) (st : locals).

(** The body of [async for sse_line in ...] (lines 183-233). *)
Definition loop_body (self : SSEProcessor) (st : locals) (sse_line : str) : control :=
  let st := if done (keepalive_task st) then st
            else set_task st (cancel (keepalive_task st)) in
  let '(self, parsed) := _parse_sse_line self sse_line in
  match parsed with
  | None => Next self st
  | Some ev =>
      let st := update_ids ev st in
      match is_error_event ev with
      | Raise e => Escapes e self st
      | Ok true =>
          match error_event_response ev st with
          | Ok error_response => YieldReturn (Dumps true error_response) self st
          | Raise _ => Next self st
          end
      | Ok false =>
          if _is_workflow_finished_event ev then
            match _extract_workflow_result ev with
            | Some result =>
                if truthy result then YieldReturn (Dumps false result) self st
                else Next self (create_task st)
            | None => Next self (create_task st)
            end
          else Next self (create_task st)
      end
  end.

(** What the upstream line source does after its last line. *)
Inductive ending : Type :=
| EndOfStream
| UpstreamRaises (msg : str).

(** The line source of one request: the lines it yields, then its end
    ([Exception(msg)] stands for the exception [execute_workflow_stream]
    raises). *)
Record upstream : Type := { lines : list str; finish : ending }.

(** While the loop waits for item [n] of the source, the event loop may
    run the keep-alive task to its end; the oracle [fired n] says whether
    it does: the sleep of a pending task runs out, or the cancellation
    requested for a task is delivered. *)
Definition await (fired : nat -> bool) (n : nat) (st : locals) : locals :=
  match keepalive_task st with
  | Pending => if fired n then set_task st Finished else st
  | Cancelling => if fired n then set_task st Cancelled else st
  | Finished | Cancelled => st
  end.

(** The loop [async for sse_line in ...] over the lines the source yields
    before it ends, from item [n] on: [Next] when every line was consumed
    and the loop asks the source for one more item. *)
Fixpoint run_lines (fired : nat -> bool) (n : nat) (self : SSEProcessor)
    (st : locals) (ls : list str) : control :=
  match ls with
  | [] => Next self st
  | sse_line :: rest =>
      match loop_body self (await fired n st) sse_line with
      | Next self' st' => run_lines fired (S n) self' st' rest
      | c => c
      end
  end.

(** How the [try] block (lines 176-242) ends. *)
Inductive try_end : Type :=
| Returned
| Escaped (e : exn).

(** The state of one run of the generator: the values yielded so far, in
    order; the instance; the locals. *)
Record run : Type := {
  yielded : list json_text;
  self_after : SSEProcessor;
  locals_after : locals
}.

(** The locals on entry to the loop: no identifier, one task created. *)
Definition initial_locals : locals :=
  {| workflow_run_id := JNull; task_id := JNull;
     keepalive_task := Pending; tasks_created := 1 |}.

(** The [try] block: the loop, then lines 235-242 when the source is
    exhausted; the source raising escapes the block. *)
Definition try_block (fired : nat -> bool) (self : SSEProcessor) (src : upstream)
  : run * try_end :=
  match run_lines fired 0 self initial_locals (lines src) with
  | Next self' st' =>
      let st' := await fired (List.length (lines src)) st' in
      match finish src with
      | EndOfStream =>
          let error_response :=
            _create_error_response
              (JString (u "Stream ended without workflow completion"))
              (workflow_run_id st') (task_id st') in
          ({| yielded := [Dumps true error_response];
              self_after := self'; locals_after := st' |}, Returned)
      | UpstreamRaises msg =>
          ({| yielded := []; self_after := self'; locals_after := st' |},
           Escaped (Exception msg))
      end
  | YieldReturn y self' st' =>
      ({| yielded := [y]; self_after := self'; locals_after := st' |}, Returned)
  | Escapes e self' st' =>
      ({| yielded := []; self_after := self'; locals_after := st' |}, Escaped e)
  end.

(** SSEProcessor.process_dify_stream on the instance [self]: the [try]
    block, then the handler of lines 244-251 for what escapes it. *)
Definition process_dify_stream (fired : nat -> bool) (self : SSEProcessor)
    (src : upstream) : run :=
  let '(r, e) := try_block fired self src in
  match e with
  | Returned => r
  | Escaped e =>
      let st := locals_after r in
      let error_response :=
        _create_error_response
          (JString (u "Stream processing error: " ++ exn_str e))
          (workflow_run_id st) (task_id st) in
      {| yielded := yielded r ++ [Dumps true error_response];
         self_after := self_after r; locals_after := st |}
  end.

(* ================================================================== *)
(** ** main.py *)

(** [sse_processor = SSEProcessor()]: one instance for the whole process;
    every request runs [process_dify_stream] on it.  The outputs of the
    requests served one after the other. *)
Fixpoint serve (fired : nat -> bool) (self : SSEProcessor) (reqs : list upstream)
  : list (list json_text) :=
  match reqs with
  | [] => []
  | src :: rest =>
      let r := process_dify_stream fired self src in
      yielded r :: serve fired (self_after r) rest
  end.

Definition sse_processor : SSEProcessor := new_SSEProcessor.

(** The whole path of one request on a fresh process: chunks of the
    response body to the values sent downstream. *)
Definition proxy_outputs (fired : nat -> bool) (chunks : list DifyClient.bytes)
  : list json_text :=
  yielded (process_dify_stream fired sse_processor
             {| lines := DifyClient.execute_workflow_stream chunks;
                finish := EndOfStream |}).

(* ================================================================== *)
(** ** The two shapes of a yielded value *)

(** The text of the dict built by [_extract_workflow_result], dumped with
    [ensure_ascii=False]. *)
Definition is_SimplifiedResult (y : json_text) : Prop :=
  exists w t s r,
    y = Dumps false (JObject [(u "workflow_run_id", w);
                              (u "task_id", t);
                              (u "status", s);
                              (u "result", r);
                              (u "event_type", JString (u "workflow_finished"))]).

(** The text of the dict built by [_create_error_response]. *)
Definition is_ErrorResult (y : json_text) : Prop :=
  exists w t e,
    y = Dumps true (JObject [(u "workflow_run_id", w);
                             (u "task_id", t);
                             (u "status", JString (u "error"));
                             (u "error", e);
                             (u "event_type", JString (u "error"))]).

(** Two states of the locals that hold the same identifiers. *)
Definition same_ids (a b : locals) : Prop :=
  workflow_run_id a = workflow_run_id b /\ task_id a = task_id b.

(** Two ways for a pass of the loop body to end that differ at most in
    the keep-alive task. *)
Definition same_control (a b : control) : Prop :=
  match a, b with
  | Next s1 st1, Next s2 st2 => s1 = s2 /\ same_ids st1 st2
  | YieldReturn y1 s1 st1, YieldReturn y2 s2 st2 => y1 = y2 /\ s1 = s2 /\ same_ids st1 st2
  | Escapes e1 s1 st1, Escapes e2 s2 st2 => e1 = e2 /\ s1 = s2 /\ same_ids st1 st2
  | _, _ => False
  end.

(** An oracle under which no keep-alive sleep ever runs out. *)
Definition never_fires (n : nat) : bool := false.

(* ================================================================== *)
(** ** Concrete records and streams *)

Module Samples.

(** A finished event whose result is the text [plain text]. *)
Definition plain_text_event : DifySSEEvent :=
  {| event := u "workflow_finished";
     data := q "{'event':'workflow_finished','data':{'outputs':{'result':'plain text'}}}" |}.

Definition plain_text_outputs : dict := [(u "result", JString (u "plain text"))].
Definition plain_text_data : dict := [(u "outputs", JObject plain_text_outputs)].
Definition plain_text_envelope : dict :=
  [(u "event", JString (u "workflow_finished")); (u "data", JObject plain_text_data)].

(** A finished event whose result is a single space. *)
Definition blank_result_event : DifySSEEvent :=
  {| event := u "workflow_finished";
     data := q "{'event':'workflow_finished','data':{'outputs':{'result':' '}}}" |}.

(** A finished event whose result is the empty string. *)
Definition empty_result_event : DifySSEEvent :=
  {| event := u "workflow_finished";
     data := q "{'event':'workflow_finished','data':{'outputs':{'result':''}}}" |}.

(** A finished event whose result is the number zero. *)
Definition zero_result_event : DifySSEEvent :=
  {| event := u "workflow_finished";
     data := q "{'event':'workflow_finished','data':{'outputs':{'result':0}}}" |}.

(** The line of a complete finished event. *)
Definition finished_line : str :=
  q "data: {'event':'workflow_finished','task_id':'123','workflow_run_id':'456','data':{'status':'succeeded','outputs':{'result':'{\'a\':1}'}}}".

(** What the processor yields for [finished_line]. *)
Definition finished_output : json_text :=
  Dumps false (JObject [(u "workflow_run_id", JString (u "456"));
                        (u "task_id", JString (u "123"));
                        (u "status", JString (u "succeeded"));
                        (u "result", JObject [(u "a", JInt 1)]);
                        (u "event_type", JString (u "workflow_finished"))]).

(** The ErrorResult with the given message and no identifier known. *)
Definition error_output (msg : str) : json_text :=
  Dumps true (JObject [(u "workflow_run_id", JString (u "unknown"));
                       (u "task_id", JString (u "unknown"));
                       (u "status", JString (u "error"));
                       (u "error", JString msg);
                       (u "event_type", JString (u "error"))]).

(** An error envelope whose data field is null, and one whose data
    field carries a message. *)
Definition error_null_data_line : str := q "data: {'event':'error','data':null}".
Definition error_boom_line : str :=
  q "data: {'event':'error','task_id':'t1','data':{'error':'boom'}}".
Definition error_boom_event : DifySSEEvent :=
  {| event := u "message";
     data := q "{'event':'error','task_id':'t1','data':{'error':'boom'}}" |}.
Definition error_boom_data : dict := [(u "error", JString (u "boom"))].
Definition error_boom_envelope : dict :=
  [(u "event", JString (u "error")); (u "task_id", JString (u "t1"));
   (u "data", JObject error_boom_data)].

(** A progress record, and one that reports an empty run identifier. *)
Definition started_line : str :=
  q "data: {'event':'workflow_started','workflow_run_id':'456'}".
Definition empty_id_line : str := q "data: {'workflow_run_id':''}".

Definition ends (ls : list str) : upstream := {| lines := ls; finish := EndOfStream |}.

(** A finished event that carries no identifier of its own. *)
Definition anonymous_finished_line : str :=
  q "data: {'event':'workflow_finished','data':{'status':'succeeded','outputs':{'result':'done'}}}".
Definition anonymous_finished_event : DifySSEEvent :=
  {| event := u "message";
     data := q "{'event':'workflow_finished','data':{'status':'succeeded','outputs':{'result':'done'}}}" |}.
Definition anonymous_finished_envelope : dict :=
  [(u "event", JString (u "workflow_finished"));
   (u "data", JObject [(u "status", JString (u "succeeded"));
                       (u "outputs", JObject [(u "result", JString (u "done"))])])].
Definition anonymous_finished_result : json :=
  JObject [(u "workflow_run_id", JString []);
           (u "task_id", JString []);
           (u "status", JString (u "succeeded"));
           (u "result", JObject [(u "text", JString (u "done"))]);
           (u "event_type", JString (u "workflow_finished"))].

(** The locals after [started_line] alone. *)
Definition started_locals : locals :=
  {| workflow_run_id := JString (u "456"); task_id := JNull;
     keepalive_task := Pending; tasks_created := 2 |}.

(** Bytes of an ASCII text, every apostrophe standing for a double quote. *)
Definition bq (s : string) : DifyClient.bytes :=
  List.map (fun x => if Byte.eqb x x27 then x22 else x) (list_byte_of_string s).

(** The body of a response: one finished event whose result is the word
    caf followed by e with acute accent (bytes c3 a9), then a newline;
    first as one chunk, then cut between the two bytes of the accented
    letter. *)
Definition cafe_head : DifyClient.bytes :=
  bq "data: {'event':'workflow_finished','data':{'outputs':{'result':'caf".
Definition cafe_tail : DifyClient.bytes := bq "'}}}" ++ [x0a].
Definition cafe_one_chunk : list DifyClient.bytes :=
  [cafe_head ++ [xc3; xa9] ++ cafe_tail].
Definition cafe_two_chunks : list DifyClient.bytes :=
  [cafe_head ++ [xc3]; [xa9] ++ cafe_tail].

(** What is yielded for a finished event with no identifier, no status
    and the given result. *)
Definition bare_output (result : json) : json_text :=
  Dumps false (JObject [(u "workflow_run_id", JString []);
                        (u "task_id", JString []);
                        (u "status", JString (u "unknown"));
                        (u "result", result);
                        (u "event_type", JString (u "workflow_finished"))]).

(** A record whose data is an integer literal of 4301 digits. *)
Definition long_integer : str := repeat (Json.ch "1") 4301.

(** A finished event whose result is that literal, as a string. *)
Definition long_result_event : DifySSEEvent :=
  {| event := u "message";
     data := q "{'event':'workflow_finished','data':{'outputs':{'result':'"
               ++ long_integer ++ q "'}}}" |}.

(** A record whose data is the JSON number 5. *)
Definition number_line : str := q "data: 5".
Definition number_event : DifySSEEvent := {| event := u "message"; data := u "5" |}.

End Samples.

(* ================================================================== *)
(** ** The parser over a whole stream, and lines that carry nothing *)

(** The records [_parse_sse_line] returns for the lines of a stream, in
    order, when it is called on each of them; and the instance afterwards. *)
Fixpoint parse_lines (self : SSEProcessor) (ls : list str)
  : SSEProcessor * list DifySSEEvent :=
  match ls with
  | [] => (self, [])
  | line :: rest =>
      let '(self1, parsed) := _parse_sse_line self line in
      let '(self2, records) := parse_lines self1 rest in
      (self2, match parsed with Some ev => ev :: records | None => records end)
  end.

(** The event type a data line gets from the instance (line 53). *)
Definition current_event_type (self : SSEProcessor) : str :=
  match _current_event self with
  | Some e => e
  | None => u "message"
  end.

(** The lines [_parse_sse_line] passes over without a record and without
    touching the instance: blank lines, comments, data lines with an empty
    payload, and lines that are neither event nor data lines. *)
Definition is_ignored (line : str) : bool :=
  let l := strip line in
  negb (nonempty l) || startswith (u ":") l
  || (negb (startswith (u "event:") l)
      && (negb (startswith (u "data:") l)
          || negb (nonempty (strip (skipn 5 l))))).

(** A stream that names its event type before its first data line: the
    first line the parser does not pass over, if there is one, is an event
    line. *)
Definition announces_event_first (ls : list str) : bool :=
  match filter (fun l => negb (is_ignored l)) ls with
  | [] => true
  | l :: _ => startswith (u "event:") (strip l)
  end.

(** Two ways for the loop to end that agree on everything but the
    instance and the keep-alive task. *)
Definition same_outcome (a b : control) : Prop :=
  match a, b with
  | Next _ st1, Next _ st2 => same_ids st1 st2
  | YieldReturn y1 _ st1, YieldReturn y2 _ st2 => y1 = y2 /\ same_ids st1 st2
  | Escapes e1 _ st1, Escapes e2 _ st2 => e1 = e2 /\ same_ids st1 st2
  | _, _ => False
  end.

(* ================================================================== *)
(** ** models/dify_models.py: WorkflowFinishedEvent *)

(** WorkflowFinishedEvent.extract_result on the [data] field of the
    model, a dict.  [None] is [JNull]. *)
Definition extract_result (self_data : dict) : res json :=
  has_outputs <-
    match dict_get self_data (u "data") with
    | None => Ok false
    | Some inner => py_in (u "outputs") inner
    end ;;
  if has_outputs then
    inner <- py_getitem (JObject self_data) (u "data") ;;
    outputs <- py_getitem inner (u "outputs") ;;
    result_str <- py_get outputs (u "result") (JString []) ;;
    match result_str with
    | JString s =>
        match json_loads s with
        | Ok v => Ok v
        | Raise JSONDecodeError => Ok (JObject [(u "raw_result", result_str)])
        | Raise e => Raise e
        end
    | _ => Ok result_str
    end
  else Ok JNull.

(* ================================================================== *)
(** ** services/dify_client.py: the request and its failures *)

Module Transport.

Import DifyClient.

(** What [httpx] raises, by the handler of lines 124-134 that catches it;
    [msg] is [str(e)]. *)
Inductive httpx_exn : Type :=
| TimeoutException (msg : str)
| HTTPStatusError (msg : str)
| OtherException (msg : str).

(** The message of the [Exception] each handler raises in its place. *)
Definition reraised (e : httpx_exn) : str :=
  match e with
  | TimeoutException m => u "Dify API timeout: " ++ m
  | HTTPStatusError m => u "Dify API HTTP error: " ++ m
  | OtherException m => u "Dify API connection error: " ++ m
  end.

(** [f"{n}"] for a non-negative integer *)
Definition decimal (n : N) : str :=
  u (DecimalString.NilEmpty.string_of_uint (N.to_uint n)).

(** A response: its status; the chunks [aiter_bytes] delivers and what it
    raises after them, if anything; and what lines 91-92 raise, if anything,
    when they read the body of a refused request and decode it for the log. *)
Record response : Type := {
  status_code : N;
  body_chunks : list bytes;
  body_failure : option httpx_exn;
  error_text_raises : option httpx_exn
}.

(** What the transport does with the request: it raises before any
    response, or responds. *)
Inductive exchange : Type :=
| ConnectFails (e : httpx_exn)
| Responds (r : response).

(** The loop of lines 104-117 alone: the lines yielded while the chunks
    arrive, and the buffer left. *)
Fixpoint drain_chunks (buffer : str) (chunks : list bytes) : list str * str :=
  match chunks with
  | [] => ([], buffer)
  | chunk :: cs =>
      match chunk with
      | [] => drain_chunks buffer cs
      | _ :: _ =>
          let buffer := buffer ++ decode_utf8_ignore chunk in
          let '(ls, b) := drain_lines (List.length buffer) buffer in
          let '(ls', b') := drain_chunks b cs in
          (ls ++ ls', b')
      end
  end.

(** DifyClient.execute_workflow_stream as a line source: the lines it
    yields and how it ends. *)
Definition execute_workflow_stream (x : exchange) : upstream :=
  match x with
  | ConnectFails e => {| lines := []; finish := UpstreamRaises (reraised e) |}
  | Responds r =>
      if (status_code r =? 200)%N then
        match body_failure r with
        | None =>
            {| lines := DifyClient.execute_workflow_stream (body_chunks r);
               finish := EndOfStream |}
        | Some e =>
            {| lines := fst (drain_chunks [] (body_chunks r));
               finish := UpstreamRaises (reraised e) |}
        end
      else
        match error_text_raises r with
        | Some e => {| lines := []; finish := UpstreamRaises (reraised e) |}
        | None =>
            {| lines := [];
               finish := UpstreamRaises
                 (reraised (HTTPStatusError
                              (u "Dify API returned " ++ decimal (status_code r)))) |}
        end
  end.

(** DifyClient.health_check on the outcome of the HEAD request: the
    status of the response, or [None] when anything was raised. *)
Definition health_check (head : option N) : bool :=
  match head with
  | Some status => (status <? 500)%N
  | None => false
  end.

End Transport.

(** main.py, [health_check]: the body of the answer of the /health
    route, given what [dify_client.health_check()] returns or raises. *)
Definition health_route (is_dify_healthy : res bool) : json :=
  match is_dify_healthy with
  | Ok healthy =>
      JObject [(u "status", JString (if healthy then u "healthy" else u "degraded"));
               (u "services",
                 JObject [(u "dify_api",
                            JString (if healthy then u "healthy" else u "unhealthy"));
                          (u "sse_processor", JString (u "healthy"))]);
               (u "timestamp", JString (u "2024-01-01T00:00:00Z"))]
  | Raise e =>
      JObject [(u "status", JString (u "unhealthy"));
               (u "error", JString (exn_str e));
               (u "timestamp", JString (u "2024-01-01T00:00:00Z"))]
  end.

(** One request through client and processor on a fresh process. *)
Definition proxy_request (fired : nat -> bool) (x : Transport.exchange) : run :=
  process_dify_stream fired sse_processor (Transport.execute_workflow_stream x).

(* ================================================================== *)
(** ** More concrete inputs *)

Module MoreSamples.

(** A response refused with status 503, and one whose body breaks off
    after a complete line and the beginning of another. *)
Definition refused_503 : Transport.response :=
  {| Transport.status_code := 503; Transport.body_chunks := [];
     Transport.body_failure := None; Transport.error_text_raises := None |}.
Definition broken_body : Transport.response :=
  {| Transport.status_code := 200;
     Transport.body_chunks :=
       [Samples.bq "data: {'event':'workflow_started','workflow_run_id':'456'}" ++ [x0a];
        Samples.bq "data: {'event':'workflow_fin"];
     Transport.body_failure := Some (Transport.TimeoutException (u "read timed out"));
     Transport.error_text_raises := None |}.

(** A model whose data nests a data object with outputs. *)
Definition nested_outputs : dict := [(u "result", JString (u " "))].
Definition nested_inner : dict := [(u "outputs", JObject nested_outputs)].
Definition nested_data : dict := [(u "data", JObject nested_inner)].

(** An SSE error event whose payload is no JSON. *)
Definition plain_error_line : str := u "data: upstream exploded".
Definition plain_error_event : DifySSEEvent :=
  {| event := u "error"; data := u "upstream exploded" |}.
Definition error_typed : SSEProcessor := {| _current_event := Some (u "error") |}.

(** A record whose data is a JSON list that holds the text of a key. *)
Definition list_payload_event : DifySSEEvent :=
  {| event := u "message"; data := q "['workflow_run_id', 'task_id']" |}.

End MoreSamples.

(* ================================================================== *)
(** * Properties *)

(** Case analysis on the scrutinee of the first [match] of the goal. *)
Ltac break_match :=
  match goal with
  | |- context [match ?x with _ => _ end] => destruct x eqn:?
  end.

(** ** Strings *)

Lemma str_eqb_eq (a b : str) : str_eqb a b = true <-> a = b.
Proof.
  revert b; induction a as [|x a IH]; intros [|y b]; simpl;
    try (split; [discriminate | discriminate]); try tauto.
  rewrite andb_true_iff, N.eqb_eq, IH.
  split; [intros [-> ->]; reflexivity | intros [= -> ->]; auto].
Qed.

Lemma str_eqb_refl (a : str) : str_eqb a a = true.
Proof. apply str_eqb_eq; reflexivity. Qed.

Lemma str_eqb_neq (a b : str) : str_eqb a b = false <-> a <> b.
Proof.
  destruct (str_eqb a b) eqn:E.
  - apply str_eqb_eq in E. split; [discriminate | intros H; contradiction].
  - split; [intros _ H | reflexivity].
    apply str_eqb_eq in H. congruence.
Qed.

Lemma startswith_length (p s : str) :
  startswith p s = true -> List.length p <= List.length s.
Proof.
  revert s; induction p as [|x p IH]; intros [|y s]; simpl; try lia; try discriminate.
  rewrite andb_true_iff. intros [_ H]. apply IH in H. lia.
Qed.

Lemma split_newline_spec (s l r : str) :
  split_newline s = Some (l, r) ->
  s = l ++ LF :: r /\ has_newline l = false.
Proof.
  revert l r; induction s as [|c s IH]; cbn [split_newline]; intros l r;
    [discriminate|].
  destruct (N.eqb c LF) eqn:E.
  - intros [= <- <-]. apply N.eqb_eq in E. subst c. auto.
  - destruct (split_newline s) as [[l' r']|]; [|discriminate].
    intros [= <- <-]. destruct (IH l' r' eq_refl) as [-> H].
    split; [reflexivity|].
    unfold has_newline; cbn [existsb]. rewrite N.eqb_sym, E. exact H.
Qed.

Lemma split_newline_none (s : str) :
  split_newline s = None <-> has_newline s = false.
Proof.
  unfold has_newline.
  induction s as [|c s IH]; cbn [split_newline existsb]; [tauto|].
  rewrite (N.eqb_sym LF c).
  destruct (N.eqb c LF); cbn [orb].
  - split; discriminate.
  - destruct (split_newline s) as [[l r]|].
    + split; [discriminate|]. intros H. apply IH in H. discriminate.
    + rewrite <- IH. tauto.
Qed.

(** ** The decoder stops within its budget *)
















(** More budget never changes an answer. *)
Lemma scanner_fuel_monotone (fuel : nat) :
  (forall depth s, scan_once fuel depth s <> PFuel ->
     forall fuel', fuel <= fuel' ->
                   scan_once fuel' depth s = scan_once fuel depth s) /\
  (forall depth acc s, parse_array fuel depth acc s <> PFuel ->
     forall fuel', fuel <= fuel' ->
                   parse_array fuel' depth acc s = parse_array fuel depth acc s) /\
  (forall depth acc s, parse_object fuel depth acc s <> PFuel ->
     forall fuel', fuel <= fuel' ->
                   parse_object fuel' depth acc s = parse_object fuel depth acc s).
Proof.
  induction fuel as [|f (IHv & IHa & IHo)].
  - repeat split; intros; exfalso; auto.
  - repeat split.
    + intros depth s H [|f'] L; [lia|]. assert (f <= f') as L' by lia.
      revert H. cbn [scan_once].
      destruct s as [|c s]; [reflexivity|].
      repeat (break_match; try reflexivity);
        intros H; try (apply IHo; assumption); try (apply IHa; assumption).
    + intros depth acc s H [|f'] L; [lia|]. assert (f <= f') as L' by lia.
      revert H. cbn [parse_array].
      destruct (scan_once f depth s) as [v' rest| |e|] eqn:E.
      * rewrite (IHv depth s) by (congruence || assumption). rewrite E.
        repeat (break_match; try reflexivity).
        intros H. apply IHa; assumption.
      * rewrite (IHv depth s) by (congruence || assumption). rewrite E. reflexivity.
      * rewrite (IHv depth s) by (congruence || assumption). rewrite E. reflexivity.
      * intros H. exfalso. apply H. reflexivity.
    + intros depth acc s H [|f'] L; [lia|]. assert (f <= f') as L' by lia.
      revert H. cbn [parse_object].
      destruct s as [|c s]; [reflexivity|].
      destruct (c =? QUOTE)%N; [|reflexivity].
      destruct (scanstring [] s) as [[k rest]|]; [|reflexivity].
      destruct (skip_ws rest) as [|c1 r1]; [reflexivity|].
      destruct (c1 =? ch ":")%N; [|reflexivity].
      destruct (scan_once f depth (skip_ws r1)) as [v' rest2| |e|] eqn:V.
      * rewrite (IHv depth (skip_ws r1)) by (congruence || assumption). rewrite V.
        repeat (break_match; try reflexivity).
        intros H. apply IHo; assumption.
      * rewrite (IHv depth (skip_ws r1)) by (congruence || assumption).
        rewrite V. reflexivity.
      * rewrite (IHv depth (skip_ws r1)) by (congruence || assumption).
        rewrite V. reflexivity.
      * intros H. exfalso. apply H. reflexivity.
Qed.

(* ================================================================== *)
(** ** DifySSEEvent.parse_data *)


Lemma parse_data_raw (ev : DifySSEEvent) :
  json_loads (data ev) = Raise JSONDecodeError ->
  parse_data ev = Ok (JObject [(u "raw_data", JString (data ev))]).
Proof. intros H. unfold parse_data. rewrite H. reflexivity. Qed.


Lemma parse_data_event_independent (e1 e2 d : str) :
  parse_data {| event := e1; data := d |} = parse_data {| event := e2; data := d |}.
Proof. reflexivity. Qed.

Lemma eq_str_true (v : json) (s : str) : eq_str v s = true <-> v = JString s.
Proof.
  destruct v; simpl; try (split; [discriminate | discriminate]).
  rewrite str_eqb_eq. split; [intros ->; reflexivity | intros [= ->]; reflexivity].
Qed.







(** Nesting that is too deep is refused with a [RecursionError], which
    [parse_data] does not catch either. *)
Example parse_data_deep_nesting :
  parse_data {| event := u "message"; data := repeat (ch "[") 1100 |}
  = Raise (RecursionError (u "maximum recursion depth exceeded while decoding a JSON array from a unicode string")).
Proof. vm_compute. reflexivity. Qed.

(* ================================================================== *)
(** ** Classification of the finished event *)

(** C2.  A record is classified as the finished event exactly when its
    data decodes to an object whose event field is the string
    workflow_finished; the SSE event type of the record plays no part. *)
Theorem is_workflow_finished_event_iff (ev : DifySSEEvent) :
  (_is_workflow_finished_event ev = true <->
   exists d, json_loads (data ev) = Ok (JObject d) /\
             dict_get d (u "event") = Some (JString (u "workflow_finished")))
  /\
  (forall sse_type,
     _is_workflow_finished_event {| event := sse_type; data := data ev |}
     = _is_workflow_finished_event ev).
Proof.
  split; [|intros sse_type; reflexivity].
  unfold _is_workflow_finished_event, parse_data.
  destruct (json_loads (data ev)) as [v|e] eqn:E.
  - destruct v; cbn [bind py_get];
      try (split; [discriminate | intros (d' & [=] & _)]).
    unfold dict_get_default. rewrite eq_str_true. split.
    + intros H. exists d. split; [reflexivity|].
      destruct (dict_get d (u "event")); [congruence | discriminate].
    + intros (d' & [= <-] & ->). reflexivity.
  - destruct e; cbn; (split; [discriminate | intros (d' & [=] & _)]).
Qed.

(* ================================================================== *)
(** ** Exactly one value is yielded *)

Lemma extract_workflow_result_shape (ev : DifySSEEvent) (r : json) :
  _extract_workflow_result ev = Some r -> is_SimplifiedResult (Dumps false r).
Proof.
  unfold _extract_workflow_result.
  repeat match goal with
         | |- context [bind ?m _] => destruct m; cbn [bind]
         end; try discriminate.
  intros [= <-]. unfold is_SimplifiedResult. eauto 6.
Qed.

Lemma error_event_response_shape (ev : DifySSEEvent) (st : locals) (r : json) :
  error_event_response ev st = Ok r -> is_ErrorResult (Dumps true r).
Proof.
  unfold error_event_response.
  repeat match goal with
         | |- context [bind ?m _] => destruct m; cbn [bind]
         end; try discriminate.
  intros [= <-]. unfold is_ErrorResult, _create_error_response. eauto 6.
Qed.

Lemma create_error_response_shape (msg w t : json) :
  is_ErrorResult (Dumps true (_create_error_response msg w t)).
Proof. unfold is_ErrorResult, _create_error_response. eauto 6. Qed.

(** A pass through the loop body that yields, yields a well-formed result. *)
Lemma loop_body_yield_shape self st line y self' st' :
  loop_body self st line = YieldReturn y self' st' ->
  is_SimplifiedResult y \/ is_ErrorResult y.
Proof.
  unfold loop_body.
  destruct (_parse_sse_line self line) as [self1 [ev|]]; [|discriminate].
  destruct (is_error_event ev) as [[|]|e]; [| |discriminate].
  - destruct (error_event_response ev _) as [r|] eqn:E; [|discriminate].
    intros [= <- _ _]. right. eapply error_event_response_shape, E.
  - destruct (_is_workflow_finished_event ev); [|discriminate].
    destruct (_extract_workflow_result ev) as [r|] eqn:E; [|discriminate].
    destruct (truthy r); [|discriminate].
    intros [= <- _ _]. left. eapply extract_workflow_result_shape, E.
Qed.

Lemma run_lines_yield_shape fired ls : forall n self st y self' st',
  run_lines fired n self st ls = YieldReturn y self' st' ->
  is_SimplifiedResult y \/ is_ErrorResult y.
Proof.
  induction ls as [|l ls IH]; intros n self st y self' st'; cbn [run_lines].
  - discriminate.
  - destruct (loop_body self (await fired n st) l) as [s1 st1|y1 s1 st1|e s1 st1] eqn:B.
    + apply IH.
    + intros [= <- _ _]. eapply loop_body_yield_shape, B.
    + discriminate.
Qed.

(** The [try] block either returns after exactly one yield, or lets an
    exception escape before any yield. *)
Lemma try_block_yields fired self src r e :
  try_block fired self src = (r, e) ->
  match e with
  | Returned => exists y, yielded r = [y] /\ (is_SimplifiedResult y \/ is_ErrorResult y)
  | Escaped _ => yielded r = []
  end.
Proof.
  unfold try_block.
  destruct (run_lines fired 0 self initial_locals (lines src))
    as [s1 st1|y1 s1 st1|e1 s1 st1] eqn:R.
  - destruct (finish src); intros [= <- <-]; cbn [yielded].
    + eexists. split; [reflexivity|]. right. apply create_error_response_shape.
    + reflexivity.
  - intros [= <- <-]. cbn [yielded]. exists y1. split; [reflexivity|].
    eapply run_lines_yield_shape, R.
  - intros [= <- <-]. reflexivity.
Qed.

(** Every run of [process_dify_stream] yields exactly one value, and that
    value is a SimplifiedResult or an ErrorResult.  A SimplifiedResult is
    only ever yielded by the loop for a record; when the source raises
    after its last line, or ends, the value is an ErrorResult. *)
Lemma process_dify_stream_single_yield
    (fired : nat -> bool) (self : SSEProcessor) (src : upstream) :
  exists y,
    yielded (process_dify_stream fired self src) = [y] /\
    (is_SimplifiedResult y \/ is_ErrorResult y) /\
    match run_lines fired 0 self initial_locals (lines src) with
    | YieldReturn y' _ _ => y = y'
    | Next _ _ | Escapes _ _ _ => is_ErrorResult y
    end.
Proof.
  unfold process_dify_stream.
  destruct (try_block fired self src) as [r e] eqn:T.
  pose proof (try_block_yields _ _ _ T) as Y.
  revert T. unfold try_block.
  destruct (run_lines fired 0 self initial_locals (lines src))
    as [s1 st1|y1 s1 st1|e1 s1 st1] eqn:R.
  - destruct (finish src); intros [= <- <-]; cbn [yielded locals_after app];
      eexists; (split; [reflexivity|]);
      split; try right; apply create_error_response_shape.
  - intros [= <- <-]. destruct Y as (y & Hy & S). cbn [yielded] in *.
    injection Hy as <-. exists y1. auto.
  - intros [= <- <-]. cbn [yielded locals_after app].
    eexists. split; [reflexivity|].
    split; try right; apply create_error_response_shape.
Qed.

(* ================================================================== *)
(** ** Extraction of the result *)

Lemma parse_result_rule (od : dict) :
  parse_result (dict_get_default od (u "result") (JString [])) =
  match dict_get od (u "result") with
  | Some (JString s) =>
      if nonempty (strip s) then
        match json_loads s with
        | Ok v => Ok v
        | Raise JSONDecodeError => Ok (JObject [(u "text", JString s)])
        | Raise e => Raise e
        end
      else Ok (if nonempty s then JString s else JNull)
  | Some v => Ok (if truthy v then v else JNull)
  | None => Ok JNull
  end.
Proof.
  unfold dict_get_default.
  destruct (dict_get od (u "result")) as [v|]; [|reflexivity].
  destruct v; cbn [parse_result]; try (break_match; reflexivity).
  destruct (nonempty (strip s)); [reflexivity|].
  cbn [truthy]. destruct (nonempty s); reflexivity.
Qed.

(** C3, as the code has it.  For a record whose data decodes to an object
    whose data field is an object (or absent) with an outputs field that is
    an object (or absent), the result of the output is: for a string that
    is not blank, its second decoding, or the object with the single key
    text holding the string when the decoder refuses it with
    [JSONDecodeError]; for a blank but non-empty string, the string itself;
    for the empty string, null; for another value, the value itself when it
    is truthy and null otherwise; null when there is no result.  When the
    second decoding raises another exception (a string of digits or of
    brackets beyond the interpreter's limits), nothing is extracted. *)
Theorem extract_workflow_result_rule (ev : DifySSEEvent) (d ed od : dict) :
  parse_data ev = Ok (JObject d) ->
  dict_get_default d (u "data") (JObject []) = JObject ed ->
  dict_get_default ed (u "outputs") (JObject []) = JObject od ->
  let output (result : json) :=
    JObject
      [(u "workflow_run_id", dict_get_default d (u "workflow_run_id") (JString []));
       (u "task_id", dict_get_default d (u "task_id") (JString []));
       (u "status", dict_get_default ed (u "status") (JString (u "unknown")));
       (u "result", result);
       (u "event_type", JString (u "workflow_finished"))] in
  _extract_workflow_result ev =
  match dict_get od (u "result") with
  | Some (JString s) =>
      if nonempty (strip s) then
        match json_loads s with
        | Ok v => Some (output v)
        | Raise JSONDecodeError => Some (output (JObject [(u "text", JString s)]))
        | Raise _ => None
        end
      else Some (output (if nonempty s then JString s else JNull))
  | Some v => Some (output (if truthy v then v else JNull))
  | None => Some (output JNull)
  end.
Proof.
  intros P D O output. unfold _extract_workflow_result.
  rewrite P. cbn [bind py_get]. rewrite D. cbn [bind py_get]. rewrite O.
  cbn [bind py_get]. rewrite parse_result_rule.
  destruct (dict_get od (u "result")) as [v|]; [|reflexivity].
  destruct v; try reflexivity.
  destruct (nonempty (strip s)); [|reflexivity].
  destruct (json_loads s) as [v|e]; [reflexivity|].
  destruct e; reflexivity.
Qed.

Lemma extract_workflow_result_rule_witness :
  parse_data Samples.plain_text_event = Ok (JObject Samples.plain_text_envelope) /\
  dict_get_default Samples.plain_text_envelope (u "data") (JObject [])
    = JObject Samples.plain_text_data /\
  dict_get_default Samples.plain_text_data (u "outputs") (JObject [])
    = JObject Samples.plain_text_outputs /\
  _extract_workflow_result Samples.plain_text_event =
  Some (JObject
          [(u "workflow_run_id", JString []);
           (u "task_id", JString []);
           (u "status", JString (u "unknown"));
           (u "result", JObject [(u "text", JString (u "plain text"))]);
           (u "event_type", JString (u "workflow_finished"))]).
Proof.
  split; [vm_compute; reflexivity|].
  split; [vm_compute; reflexivity|].
  split; [vm_compute; reflexivity|].
  exact (extract_workflow_result_rule Samples.plain_text_event
           (d := Samples.plain_text_envelope) (ed := Samples.plain_text_data)
           (od := Samples.plain_text_outputs)
           ltac:(vm_compute; reflexivity) ltac:(vm_compute; reflexivity)
           ltac:(vm_compute; reflexivity)).
Defined.

(** C3, against the claim as stated: the result of a finished event is a
    single space.  It does not decode, and the output carries the string
    itself, not the object with key text.  For the empty string, and for
    the number zero, the output carries null. *)
Lemma extract_result_blank_string_counterexample :
  _is_workflow_finished_event Samples.blank_result_event = true /\
  json_loads (u " ") = Raise JSONDecodeError /\
  (exists r, _extract_workflow_result Samples.blank_result_event = Some (JObject r) /\
             dict_get r (u "result") = Some (JString (u " "))) /\
  JString (u " ") <> JObject [(u "text", JString (u " "))] /\
  (exists r, _extract_workflow_result Samples.empty_result_event = Some (JObject r) /\
             dict_get r (u "result") = Some JNull) /\
  (exists r, _extract_workflow_result Samples.zero_result_event = Some (JObject r) /\
             dict_get r (u "result") = Some JNull).
Proof.
  split; [vm_compute; reflexivity|].
  split; [vm_compute; reflexivity|].
  split; [eexists; split; vm_compute; reflexivity|].
  split; [discriminate|].
  split; eexists; split; vm_compute; reflexivity.
Qed.

(** A finished event whose result is a string of 4301 digits: the second
    decoding raises [ValueError], which the inner handler does not catch,
    and nothing is extracted. *)
Example extract_workflow_result_long_integer :
  _is_workflow_finished_event Samples.long_result_event = true /\
  _extract_workflow_result Samples.long_result_event = None.
Proof. split; vm_compute; reflexivity. Qed.

(* ================================================================== *)
(** ** The loop, record by record *)

Lemma run_lines_app fired pre post : forall n self st,
  run_lines fired n self st (pre ++ post) =
  match run_lines fired n self st pre with
  | Next self1 st1 => run_lines fired (n + List.length pre) self1 st1 post
  | c => c
  end.
Proof.
  induction pre as [|l pre IH]; intros n self st; cbn [run_lines app List.length].
  - rewrite Nat.add_0_r. reflexivity.
  - destruct (loop_body self (await fired n st) l) as [s1 st1|y s1 st1|e s1 st1];
      try reflexivity.
    rewrite IH. replace (S n + List.length pre) with (n + S (List.length pre)) by lia.
    reflexivity.
Qed.

(** Waiting and cancelling touch the keep-alive task only. *)
Lemma await_ids fired n st :
  workflow_run_id (await fired n st) = workflow_run_id st /\
  task_id (await fired n st) = task_id st /\
  tasks_created (await fired n st) = tasks_created st.
Proof.
  unfold await. destruct (keepalive_task st); try destruct (fired n); auto.
Qed.

(** The identifiers after a record whose data decodes to an object: each
    is replaced when the object has the key, and kept otherwise. *)
Lemma update_ids_object (ev : DifySSEEvent) (d : dict) (st : locals) :
  parse_data ev = Ok (JObject d) ->
  update_ids ev st =
  set_ids st (dict_get_default d (u "workflow_run_id") (workflow_run_id st))
             (dict_get_default d (u "task_id") (task_id st)).
Proof.
  intros P. unfold update_ids. rewrite P. cbn [py_in py_getitem].
  unfold dict_get_default.
  destruct (dict_get d (u "workflow_run_id")), (dict_get d (u "task_id")); reflexivity.
Qed.

Lemma update_ids_task (ev : DifySSEEvent) (st : locals) :
  keepalive_task (update_ids ev st) = keepalive_task st /\
  tasks_created (update_ids ev st) = tasks_created st.
Proof.
  unfold update_ids.
  repeat (break_match; try (split; reflexivity)).
Qed.

Lemma is_error_event_envelope (ev : DifySSEEvent) (d : dict) :
  parse_data ev = Ok (JObject d) ->
  dict_get d (u "event") = Some (JString (u "error")) ->
  is_error_event ev = Ok true.
Proof.
  intros P E. unfold is_error_event.
  destruct (str_eqb (event ev) (u "error")); [reflexivity|].
  rewrite P. cbn [bind py_get]. unfold dict_get_default. rewrite E. reflexivity.
Qed.

(** The pass of the loop body over the line of an error envelope. *)
Lemma loop_body_error_envelope self st line self2 ev d ed :
  _parse_sse_line self line = (self2, Some ev) ->
  parse_data ev = Ok (JObject d) ->
  dict_get d (u "event") = Some (JString (u "error")) ->
  dict_get_default d (u "data") (JObject []) = JObject ed ->
  exists st2,
    loop_body self st line =
    YieldReturn
      (Dumps true (_create_error_response
         (dict_get_default ed (u "error") (JString (u "Unknown error from Dify API")))
         (dict_get_default d (u "workflow_run_id") (workflow_run_id st))
         (dict_get_default d (u "task_id") (task_id st))))
      self2 st2.
Proof.
  intros L P E D. unfold loop_body. rewrite L.
  rewrite (is_error_event_envelope ev P E).
  rewrite (update_ids_object ev _ P).
  unfold error_event_response. rewrite P. cbn [bind py_get]. rewrite D.
  cbn [bind py_get].
  destruct (done (keepalive_task st)); eexists; reflexivity.
Qed.

(* ================================================================== *)
(** ** Error envelopes *)

(** C4, as the code has it.  When the lines before it were all consumed
    without a yield, a record whose data decodes to an object with event
    equal to error, and whose data field is absent or an object, makes the
    processor yield exactly one ErrorResult: its error is the error field
    of that data object, or the default text when absent; its identifiers
    are those known so far, updated from this record.  Whatever follows the
    record in the stream is not looked at. *)
Theorem error_envelope_ends_stream
    (fired : nat -> bool) (self : SSEProcessor) (pre : list str) (line : str)
    (post : list str) (fin : ending)
    (self1 : SSEProcessor) (st1 : locals) (self2 : SSEProcessor)
    (ev : DifySSEEvent) (d ed : dict) :
  run_lines fired 0 self initial_locals pre = Next self1 st1 ->
  _parse_sse_line self1 line = (self2, Some ev) ->
  parse_data ev = Ok (JObject d) ->
  dict_get d (u "event") = Some (JString (u "error")) ->
  dict_get_default d (u "data") (JObject []) = JObject ed ->
  yielded (process_dify_stream fired self
             {| lines := pre ++ line :: post; finish := fin |}) =
  [Dumps true (_create_error_response
     (dict_get_default ed (u "error") (JString (u "Unknown error from Dify API")))
     (dict_get_default d (u "workflow_run_id") (workflow_run_id st1))
     (dict_get_default d (u "task_id") (task_id st1)))]
  /\ self_after (process_dify_stream fired self
                   {| lines := pre ++ line :: post; finish := fin |}) = self2.
Proof.
  intros R L P E D.
  unfold process_dify_stream, try_block. cbn [lines finish].
  rewrite run_lines_app, R. cbn [run_lines].
  destruct (@loop_body_error_envelope self1
              (await fired (0 + List.length pre) st1) line self2 ev d ed L P E D)
    as (st2 & B).
  rewrite B.
  destruct (await_ids fired (0 + List.length pre) st1) as (-> & -> & _).
  split; reflexivity.
Qed.

Lemma error_envelope_ends_stream_witness :
  run_lines never_fires 0 sse_processor initial_locals [Samples.started_line]
    = Next sse_processor
        {| workflow_run_id := JString (u "456"); task_id := JNull;
           keepalive_task := Pending; tasks_created := 2 |} /\
  _parse_sse_line sse_processor Samples.error_boom_line
    = (sse_processor, Some Samples.error_boom_event) /\
  parse_data Samples.error_boom_event = Ok (JObject Samples.error_boom_envelope) /\
  dict_get Samples.error_boom_envelope (u "event") = Some (JString (u "error")) /\
  dict_get_default Samples.error_boom_envelope (u "data") (JObject [])
    = JObject Samples.error_boom_data /\
  yielded (process_dify_stream never_fires sse_processor
             {| lines := [Samples.started_line] ++ Samples.error_boom_line
                           :: [Samples.finished_line];
                finish := EndOfStream |}) =
  [Dumps true (JObject [(u "workflow_run_id", JString (u "456"));
                        (u "task_id", JString (u "t1"));
                        (u "status", JString (u "error"));
                        (u "error", JString (u "boom"));
                        (u "event_type", JString (u "error"))])].
Proof.
  split; [vm_compute; reflexivity|].
  split; [vm_compute; reflexivity|].
  split; [vm_compute; reflexivity|].
  split; [vm_compute; reflexivity|].
  split; [vm_compute; reflexivity|].
  exact (proj1 (error_envelope_ends_stream never_fires sse_processor
           [Samples.started_line] Samples.error_boom_line [Samples.finished_line]
           EndOfStream
           (self1 := sse_processor)
           (st1 := {| workflow_run_id := JString (u "456"); task_id := JNull;
                      keepalive_task := Pending; tasks_created := 2 |})
           (self2 := sse_processor) (ev := Samples.error_boom_event)
           (d := Samples.error_boom_envelope) (ed := Samples.error_boom_data)
           ltac:(vm_compute; reflexivity) ltac:(vm_compute; reflexivity)
           ltac:(vm_compute; reflexivity) ltac:(vm_compute; reflexivity)
           ltac:(vm_compute; reflexivity))).
Defined.

(** C4, against the claim as stated: the first record is an error
    envelope whose data field is null.  Reading its error raises, the
    handler of lines 214-216 skips the record, and the next record, a
    finished event, is processed: the only value yielded is its
    SimplifiedResult, and no ErrorResult is yielded at all. *)
Lemma error_envelope_null_data_counterexample :
  (exists ev d,
     _parse_sse_line sse_processor Samples.error_null_data_line = (sse_processor, Some ev) /\
     parse_data ev = Ok (JObject d) /\
     dict_get d (u "event") = Some (JString (u "error"))) /\
  yielded (process_dify_stream never_fires sse_processor
             (Samples.ends [Samples.error_null_data_line; Samples.finished_line]))
  = [Samples.finished_output] /\
  yielded (process_dify_stream never_fires sse_processor
             (Samples.ends [Samples.error_null_data_line]))
  = [Samples.error_output (u "Stream ended without workflow completion")].
Proof.
  split; [do 2 eexists; repeat split; vm_compute; reflexivity|].
  split; vm_compute; reflexivity.
Qed.

(* ================================================================== *)
(** ** Exhaustion *)

(** C5, as the code has it.  When every line of the source was consumed
    without a yield and without an exception, and the source then ends,
    the processor yields exactly one ErrorResult with the message
    [Stream ended without workflow completion]; each identifier is the
    accumulated one when that is truthy, and [unknown] otherwise, which
    covers an identifier never observed. *)
Theorem stream_exhausted_error
    (fired : nat -> bool) (self : SSEProcessor) (ls : list str)
    (self' : SSEProcessor) (st' : locals) :
  run_lines fired 0 self initial_locals ls = Next self' st' ->
  yielded (process_dify_stream fired self {| lines := ls; finish := EndOfStream |}) =
  [Dumps true
     (JObject [(u "workflow_run_id",
                 if truthy (workflow_run_id st') then workflow_run_id st'
                 else JString (u "unknown"));
               (u "task_id",
                 if truthy (task_id st') then task_id st'
                 else JString (u "unknown"));
               (u "status", JString (u "error"));
               (u "error", JString (u "Stream ended without workflow completion"));
               (u "event_type", JString (u "error"))])]
  /\ (workflow_run_id st' = JNull ->
      exists o, yielded (process_dify_stream fired self
                           {| lines := ls; finish := EndOfStream |})
                = [Dumps true (JObject o)] /\
                dict_get o (u "workflow_run_id") = Some (JString (u "unknown"))).
Proof.
  intros R. unfold process_dify_stream, try_block. cbn [lines finish].
  rewrite R. cbn [yielded].
  destruct (await_ids fired (List.length ls) st') as (-> & -> & _).
  split; [reflexivity|].
  intros N. eexists. split; [reflexivity|]. rewrite N. reflexivity.
Qed.

Lemma stream_exhausted_error_witness :
  run_lines never_fires 0 sse_processor initial_locals [Samples.started_line]
    = Next sse_processor
        {| workflow_run_id := JString (u "456"); task_id := JNull;
           keepalive_task := Pending; tasks_created := 2 |} /\
  yielded (process_dify_stream never_fires sse_processor
             {| lines := [Samples.started_line]; finish := EndOfStream |}) =
  [Dumps true
     (JObject [(u "workflow_run_id", JString (u "456"));
               (u "task_id", JString (u "unknown"));
               (u "status", JString (u "error"));
               (u "error", JString (u "Stream ended without workflow completion"));
               (u "event_type", JString (u "error"))])].
Proof.
  split; [vm_compute; reflexivity|].
  exact (proj1 (stream_exhausted_error never_fires sse_processor [Samples.started_line]
           (self' := sse_processor)
           (st' := {| workflow_run_id := JString (u "456"); task_id := JNull;
                      keepalive_task := Pending; tasks_created := 2 |})
           ltac:(vm_compute; reflexivity))).
Defined.

(** C5, against the claim as stated: the only record reports the empty
    string as run identifier.  The loop consumes it, the accumulated
    identifier is the empty string, and the ErrorResult yielded at the end
    of the stream carries [unknown] instead. *)
Lemma stream_exhausted_empty_id_counterexample :
  (exists self' st',
     run_lines never_fires 0 sse_processor initial_locals [Samples.empty_id_line]
       = Next self' st' /\
     workflow_run_id st' = JString []) /\
  (exists o,
     yielded (process_dify_stream never_fires sse_processor
                (Samples.ends [Samples.empty_id_line]))
       = [Dumps true (JObject o)] /\
     dict_get o (u "error") = Some (JString (u "Stream ended without workflow completion")) /\
     dict_get o (u "workflow_run_id") = Some (JString (u "unknown"))) /\
  JString (u "unknown") <> JString [].
Proof.
  split; [do 2 eexists; split; vm_compute; reflexivity|].
  split; [eexists; repeat split; vm_compute; reflexivity|].
  discriminate.
Qed.

(* ================================================================== *)
(** ** Chunk boundaries *)

(** C6, at the failing input.  The same bytes, a finished event whose
    result holds a two-byte character, are delivered as one chunk and as
    two chunks cut inside that character.  Each chunk is decoded on its
    own, so the two halves of the character are both dropped: the lines
    differ, and so does the value sent downstream. *)
Theorem rechunking_inside_character_changes_output :
  List.concat Samples.cafe_one_chunk = List.concat Samples.cafe_two_chunks /\
  DifyClient.execute_workflow_stream Samples.cafe_one_chunk =
    [q "data: {'event':'workflow_finished','data':{'outputs':{'result':'caf"
       ++ [233%N] ++ q "'}}}"] /\
  DifyClient.execute_workflow_stream Samples.cafe_two_chunks =
    [q "data: {'event':'workflow_finished','data':{'outputs':{'result':'caf'}}}"] /\
  proxy_outputs never_fires Samples.cafe_one_chunk =
    [Samples.bare_output (JObject [(u "text", JString (u "caf" ++ [233%N]))])] /\
  proxy_outputs never_fires Samples.cafe_two_chunks =
    [Samples.bare_output (JObject [(u "text", JString (u "caf"))])].
Proof. repeat split; vm_compute; reflexivity. Qed.

(* ================================================================== *)
(** ** Records that are neither error nor finished *)

(** C7, at the failing input.  The record [data: 5] decodes to a number:
    it is no finished event and its SSE event type is not error.  The
    condition of line 205 calls [get] on the number outside every handler;
    the exception reaches the handler of the whole generator, which yields
    an ErrorResult and ends the run.  The finished event that follows is
    never processed, while alone it yields its SimplifiedResult. *)
Theorem number_record_aborts_stream :
  _parse_sse_line sse_processor Samples.number_line
    = (sse_processor, Some Samples.number_event) /\
  parse_data Samples.number_event = Ok (JInt 5) /\
  _is_workflow_finished_event Samples.number_event = false /\
  is_error_event Samples.number_event
    = Raise (AttributeError (u "'int' object has no attribute 'get'")) /\
  yielded (process_dify_stream never_fires sse_processor
             (Samples.ends [Samples.number_line; Samples.finished_line]))
    = [Samples.error_output
         (u "Stream processing error: 'int' object has no attribute 'get'")] /\
  yielded (process_dify_stream never_fires sse_processor
             (Samples.ends [Samples.finished_line]))
    = [Samples.finished_output].
Proof. repeat split; vm_compute; reflexivity. Qed.

(* ================================================================== *)
(** ** The processor is a singleton *)

(** C8, at the failing input.  Two requests are served by the one
    instance of main.py.  The first stream is the single line
    [event: error]; the second starts with a data line and has no event
    line.  The record of that data line carries the event type left by the
    first request, error, not the default message: it is taken for an
    error event and the second request ends with an ErrorResult.  After a
    first request without event line, the same second stream yields its
    SimplifiedResult. *)
Theorem event_type_leaks_across_requests :
  snd (_parse_sse_line
         (self_after (process_dify_stream never_fires sse_processor
                        (Samples.ends [u "event: error"])))
         Samples.started_line)
    = Some {| event := u "error";
              data := q "{'event':'workflow_started','workflow_run_id':'456'}" |} /\
  snd (_parse_sse_line sse_processor Samples.started_line)
    = Some {| event := u "message";
              data := q "{'event':'workflow_started','workflow_run_id':'456'}" |} /\
  serve never_fires sse_processor
    [Samples.ends [u "event: error"];
     Samples.ends [Samples.started_line; Samples.finished_line]]
    = [[Samples.error_output (u "Stream ended without workflow completion")];
       [Dumps true (JObject [(u "workflow_run_id", JString (u "456"));
                             (u "task_id", JString (u "unknown"));
                             (u "status", JString (u "error"));
                             (u "error", JString (u "Unknown error from Dify API"));
                             (u "event_type", JString (u "error"))])]] /\
  serve never_fires sse_processor
    [Samples.ends [];
     Samples.ends [Samples.started_line; Samples.finished_line]]
    = [[Samples.error_output (u "Stream ended without workflow completion")];
       [Samples.finished_output]].
Proof. repeat split; vm_compute; reflexivity. Qed.

(* ================================================================== *)
(** ** The keep-alive task *)

Lemma same_ids_refl st : same_ids st st.
Proof. split; reflexivity. Qed.

Lemma same_ids_trans a b c : same_ids a b -> same_ids b c -> same_ids a c.
Proof. intros [? ?] [? ?]; split; congruence. Qed.

Lemma same_ids_sym a b : same_ids a b -> same_ids b a.
Proof. intros [? ?]; split; congruence. Qed.

Lemma same_ids_set_task st k : same_ids (set_task st k) st.
Proof. split; reflexivity. Qed.

Lemma same_ids_create_task st : same_ids (create_task st) st.
Proof. split; reflexivity. Qed.

Lemma same_ids_await fired n st : same_ids (await fired n st) st.
Proof. destruct (await_ids fired n st) as (? & ? & _). split; assumption. Qed.

Lemma update_ids_same ev a b :
  same_ids a b -> same_ids (update_ids ev a) (update_ids ev b).
Proof.
  destruct a as [wa ta ka ca], b as [wb tb kb cb].
  intros [W T]. cbn in W, T. subst wb tb.
  unfold update_ids, set_ids.
  cbn [workflow_run_id task_id keepalive_task tasks_created].
  repeat (break_match; try (split; reflexivity)).
Qed.

Lemma error_event_response_same ev a b :
  same_ids a b -> error_event_response ev a = error_event_response ev b.
Proof. intros [W T]. unfold error_event_response. rewrite W, T. reflexivity. Qed.

(** The keep-alive task has no influence on a pass of the loop body. *)
Lemma loop_body_same self a b line :
  same_ids a b -> same_control (loop_body self a line) (loop_body self b line).
Proof.
  intros S.
  assert (same_ids (if done (keepalive_task a) then a
                    else set_task a (cancel (keepalive_task a)))
                   (if done (keepalive_task b) then b
                    else set_task b (cancel (keepalive_task b)))) as S1.
  { destruct (done (keepalive_task a)), (done (keepalive_task b));
      destruct S; split; assumption. }
  unfold loop_body. revert S1.
  generalize (if done (keepalive_task a) then a
              else set_task a (cancel (keepalive_task a))).
  generalize (if done (keepalive_task b) then b
              else set_task b (cancel (keepalive_task b))).
  intros b1 a1 S1.
  destruct (_parse_sse_line self line) as [self1 [ev|]]; [|cbn; auto].
  pose proof (update_ids_same ev S1) as S2.
  destruct (is_error_event ev) as [[|]|e]; [| |cbn; auto].
  - rewrite (error_event_response_same ev S2).
    destruct (error_event_response ev (update_ids ev b1)); cbn; auto.
  - assert (same_ids (create_task (update_ids ev a1)) (create_task (update_ids ev b1))) as S3
      by (destruct S2; split; assumption).
    destruct (_is_workflow_finished_event ev); [|cbn; auto].
    destruct (_extract_workflow_result ev) as [r|]; [|cbn; auto].
    destruct (truthy r); cbn; auto.
Qed.

Lemma run_lines_same f1 f2 ls : forall n1 n2 self a b,
  same_ids a b ->
  same_control (run_lines f1 n1 self a ls) (run_lines f2 n2 self b ls).
Proof.
  induction ls as [|l ls IH]; intros n1 n2 self a b S; cbn [run_lines].
  - cbn. auto.
  - assert (same_ids (await f1 n1 a) (await f2 n2 b)) as S1.
    { eapply same_ids_trans; [apply same_ids_await|].
      eapply same_ids_trans; [exact S|]. apply same_ids_sym, same_ids_await. }
    pose proof (loop_body_same self l S1) as B.
    destruct (loop_body self (await f1 n1 a) l), (loop_body self (await f2 n2 b) l);
      cbn in B; try contradiction.
    + destruct B as [<- B]. apply IH, B.
    + exact B.
    + exact B.
Qed.


(** After a pass over any line, the task that was current when the line
    arrived has been asked to stop (lines 184-185), and is still the
    current one unless the pass ended at line 233, which replaces it by a
    new task. *)
Lemma loop_body_task self st line :
  match loop_body self st line with
  | Next _ st' =>
      (tasks_created st' = tasks_created st /\
       keepalive_task st' = cancel (keepalive_task st)) \/
      (exists st1,
          st' = create_task st1 /\
          tasks_created st1 = tasks_created st /\
          keepalive_task st1 = cancel (keepalive_task st))
  | YieldReturn _ _ st' | Escapes _ _ st' =>
      tasks_created st' = tasks_created st /\
      keepalive_task st' = cancel (keepalive_task st)
  end.
Proof.
  unfold loop_body.
  set (st0 := if done (keepalive_task st) then st
              else set_task st (cancel (keepalive_task st))).
  assert (tasks_created st0 = tasks_created st /\
          keepalive_task st0 = cancel (keepalive_task st)) as K.
  { subst st0. destruct (keepalive_task st) eqn:E; cbn; rewrite ?E; auto. }
  clearbody st0.
  destruct (_parse_sse_line self line) as [self1 [ev|]]; [|left; exact K].
  destruct (update_ids_task ev st0) as [U1 U2].
  assert (tasks_created (update_ids ev st0) = tasks_created st /\
          keepalive_task (update_ids ev st0) = cancel (keepalive_task st)) as K'
      by (rewrite U1, U2; exact K).
  assert (exists st1,
             create_task (update_ids ev st0) = create_task st1 /\
             tasks_created st1 = tasks_created st /\
             keepalive_task st1 = cancel (keepalive_task st)) as F
      by (exists (update_ids ev st0); split; [reflexivity | exact K']).
  destruct (is_error_event ev) as [[|]|e]; [| |exact K'].
  - destruct (error_event_response ev _); [exact K' | left; exact K'].
  - destruct (_is_workflow_finished_event ev); [|right; exact F].
    destruct (_extract_workflow_result ev) as [r|]; [|right; exact F].
    destruct (truthy r); [exact K' | right; exact F].
Qed.

(** The same, counting the tasks only. *)
Lemma loop_body_task_count self st line :
  match loop_body self st line with
  | Next _ st' =>
      tasks_created st' = tasks_created st \/
      tasks_created st' = S (tasks_created st)
  | YieldReturn _ _ st' | Escapes _ _ st' => tasks_created st' = tasks_created st
  end.
Proof.
  pose proof (loop_body_task self st line) as T.
  destruct (loop_body self st line) as [s1 st'|y s1 st'|e s1 st'].
  - destruct T as [[T _]|(st1 & -> & T & _)]; [left; exact T|].
    right. cbn. rewrite T. reflexivity.
  - apply T.
  - apply T.
Qed.






(* ================================================================== *)
(** ** Line reassembly at the level of text *)

Section Reassembly.

Import DifyClient.

Lemma has_newline_app (a b : str) :
  has_newline (a ++ b) = has_newline a || has_newline b.
Proof. unfold has_newline. apply existsb_app. Qed.

Lemma text_lines_no_newline (s cur : str) :
  has_newline s = false -> text_lines cur s = ([], cur ++ s).
Proof.
  revert cur; induction s as [|c s IH]; intros cur H; cbn [text_lines].
  - rewrite app_nil_r. reflexivity.
  - unfold has_newline in H. cbn [existsb] in H.
    apply orb_false_iff in H. destruct H as [H1 H2].
    rewrite N.eqb_sym, H1. rewrite (IH _ H2), <- app_assoc. reflexivity.
Qed.

(** Scanning a text in two parts gives the lines of the whole. *)
Lemma text_lines_app (a b cur : str) :
  text_lines cur (a ++ b) =
  let '(la, ra) := text_lines cur a in
  let '(lb, rb) := text_lines ra b in
  (la ++ lb, rb).
Proof.
  revert cur; induction a as [|c a IH]; intros cur; cbn [text_lines app].
  - destruct (text_lines cur b). reflexivity.
  - destruct (N.eqb c LF).
    + rewrite IH. destruct (text_lines [] a) as [la ra].
      destruct (text_lines ra b) as [lb rb]. rewrite app_assoc. reflexivity.
    + apply IH.
Qed.

Lemma text_lines_rest (s cur : str) :
  has_newline cur = false -> has_newline (snd (text_lines cur s)) = false.
Proof.
  revert cur; induction s as [|c s IH]; intros cur H; cbn [text_lines].
  - exact H.
  - destruct (N.eqb c LF) eqn:E.
    + specialize (IH [] eq_refl). destruct (text_lines [] s). exact IH.
    + apply IH. rewrite has_newline_app, H. unfold has_newline. cbn [existsb].
      rewrite N.eqb_sym, E. reflexivity.
Qed.

Lemma text_lines_prefix (cur s : str) :
  has_newline cur = false -> text_lines cur s = text_lines [] (cur ++ s).
Proof.
  intros H. rewrite text_lines_app, (text_lines_no_newline cur [] H).
  cbn [app]. destruct (text_lines cur s). reflexivity.
Qed.

(** The [while] loop with a budget of the length of the buffer computes
    the lines of the buffer: the budget is never the reason to stop. *)
Lemma drain_lines_text_lines (fuel : nat) : forall s,
  List.length s <= fuel -> drain_lines fuel s = text_lines [] s.
Proof.
  induction fuel as [|f IH]; intros s L.
  - destruct s; [reflexivity | simpl in L; lia].
  - cbn [drain_lines]. destruct (split_newline s) as [[l r]|] eqn:E.
    + destruct (split_newline_spec _ E) as [-> H].
      rewrite IH by (rewrite List.length_app in L; simpl in L; lia).
      rewrite text_lines_app, (text_lines_no_newline l [] H).
      cbn [app text_lines]. rewrite N.eqb_refl.
      destruct (text_lines [] r). reflexivity.
    + apply split_newline_none in E.
      rewrite (text_lines_no_newline s [] E). reflexivity.
Qed.

Lemma drain_lines_rest (s : str) :
  has_newline (snd (drain_lines (List.length s) s)) = false.
Proof.
  rewrite drain_lines_text_lines by lia. apply text_lines_rest. reflexivity.
Qed.

(** What [reassemble] yields depends on the decoded chunks only through
    their concatenation. *)
Lemma reassemble_text (chunks : list bytes) : forall buffer,
  has_newline buffer = false ->
  reassemble buffer chunks =
  let '(ls, b) := text_lines [] (buffer ++ List.concat (List.map decode_utf8_ignore chunks)) in
  ls ++ yield_line b.
Proof.
  induction chunks as [|chunk cs IH]; intros buffer H; cbn [reassemble List.map List.concat].
  - rewrite app_nil_r, (text_lines_no_newline buffer [] H). reflexivity.
  - destruct chunk as [|x chunk'].
    + cbn [decode_utf8_ignore app]. apply IH, H.
    + set (t := decode_utf8_ignore (x :: chunk')).
      set (rest := List.concat (List.map decode_utf8_ignore cs)).
      rewrite drain_lines_text_lines by lia.
      rewrite (app_assoc buffer t rest), (text_lines_app (buffer ++ t) rest []).
      pose proof (text_lines_rest (buffer ++ t) [] eq_refl) as R.
      destruct (text_lines [] (buffer ++ t)) as [la ra].
      cbn [snd] in R. rewrite (IH ra R). fold rest.
      rewrite (text_lines_prefix ra rest R).
      destruct (text_lines [] (ra ++ rest)) as [lb rb].
      rewrite app_assoc. reflexivity.
Qed.

(** Re-chunking invariance at the level of text: two sequences of chunks
    whose decoded texts concatenate to the same text yield the same lines. *)
Lemma rechunking_decoded_text (cs1 cs2 : list bytes) :
  List.concat (List.map decode_utf8_ignore cs1)
    = List.concat (List.map decode_utf8_ignore cs2) ->
  execute_workflow_stream cs1 = execute_workflow_stream cs2.
Proof.
  intros H. unfold execute_workflow_stream.
  rewrite !reassemble_text by reflexivity. cbn [app]. rewrite H. reflexivity.
Qed.

Lemma decode_ascii_app (a b : bytes) :
  ascii_chunk a = true ->
  decode_utf8_ignore (a ++ b) = List.map Byte.to_N a ++ decode_utf8_ignore b.
Proof.
  induction a as [|x a IH]; intros H; [reflexivity|].
  cbn [ascii_chunk forallb] in H. apply andb_true_iff in H. destruct H as [H1 H2].
  cbn [app decode_utf8_ignore List.map]. rewrite H1. f_equal. apply IH, H2.
Qed.

Lemma decode_ascii_chunks (cs : list bytes) :
  forallb ascii_chunk cs = true ->
  List.concat (List.map decode_utf8_ignore cs) = List.map Byte.to_N (List.concat cs).
Proof.
  induction cs as [|c cs IH]; intros H; [reflexivity|].
  cbn [forallb] in H. apply andb_true_iff in H. destruct H as [H1 H2].
  cbn [List.map List.concat]. rewrite List.map_app, <- (IH H2).
  rewrite <- (app_nil_r c) at 1. rewrite (decode_ascii_app c [] H1).
  cbn [decode_utf8_ignore]. rewrite app_nil_r. reflexivity.
Qed.

(** X19.  For ASCII bodies the property of C6 holds: every two partitions
    of the same bytes yield the same lines, and the same values downstream. *)
Lemma rechunking_ascii (fired : nat -> bool) (cs1 cs2 : list bytes) :
  List.concat cs1 = List.concat cs2 ->
  forallb ascii_chunk cs1 = true ->
  forallb ascii_chunk cs2 = true ->
  execute_workflow_stream cs1 = execute_workflow_stream cs2 /\
  proxy_outputs fired cs1 = proxy_outputs fired cs2.
Proof.
  intros H A1 A2.
  assert (execute_workflow_stream cs1 = execute_workflow_stream cs2) as E.
  { apply rechunking_decoded_text.
    rewrite (decode_ascii_chunks _ A1), (decode_ascii_chunks _ A2), H. reflexivity. }
  split; [exact E|]. unfold proxy_outputs. rewrite E. reflexivity.
Qed.

End Reassembly.

(* ================================================================== *)
(** ** Identifiers and the finished branch *)

(** X21.  A record whose data decodes to something that is no object
    leaves the identifiers alone. *)
Lemma update_ids_not_object (ev : DifySSEEvent) (v : json) (st : locals) :
  parse_data ev = Ok v ->
  (forall d, v <> JObject d) ->
  update_ids ev st = st.
Proof.
  intros P N. unfold update_ids. rewrite P. destruct st as [w t k c].
  destruct v; cbn [py_in py_getitem set_ids workflow_run_id task_id
                   keepalive_task tasks_created];
    try reflexivity; try (exfalso; eapply N; reflexivity);
    repeat (break_match; try reflexivity); try discriminate;
    repeat match goal with
           | H : (if ?b then _ else _) = _ |- _ =>
               destruct b; try discriminate; injection H as <-
           end;
    reflexivity.
Qed.

(** The identifiers after a pass that goes on to the next line. *)
Lemma loop_body_next_ids self st line self' st' :
  loop_body self st line = Next self' st' ->
  match snd (_parse_sse_line self line) with
  | Some ev => same_ids st' (update_ids ev st)
  | None => same_ids st' st
  end.
Proof.
  unfold loop_body.
  set (st0 := if done (keepalive_task st) then st
              else set_task st (cancel (keepalive_task st))).
  assert (same_ids st0 st) as S0
      by (subst st0; destruct (done (keepalive_task st));
          [apply same_ids_refl | apply same_ids_set_task]).
  clearbody st0.
  destruct (_parse_sse_line self line) as [self1 [ev|]]; cbn [snd].
  - pose proof (update_ids_same ev S0) as S1.
    assert (same_ids (create_task (update_ids ev st0)) (update_ids ev st)) as S2
        by (eapply same_ids_trans; [apply same_ids_create_task | exact S1]).
    repeat (break_match; try discriminate); intros [= _ <-]; assumption.
  - intros [= _ <-]. exact S0.
Qed.

(** A record that passes the error check and is classified as finished
    ends the run with the extracted result. *)
Lemma loop_body_finished self st line self' ev r :
  _parse_sse_line self line = (self', Some ev) ->
  is_error_event ev = Ok false ->
  _is_workflow_finished_event ev = true ->
  _extract_workflow_result ev = Some r ->
  exists st', loop_body self st line = YieldReturn (Dumps false r) self' st'.
Proof.
  intros L E F X. unfold loop_body. rewrite L, E, F, X.
  destruct (extract_workflow_result_shape ev X) as (w & t & s & x & [= ->]).
  eexists. reflexivity.
Qed.

(** A record that the error check accepts and whose error text can be
    read ends the run with the ErrorResult built from it. *)
Lemma loop_body_error self st line self' ev resp :
  _parse_sse_line self line = (self', Some ev) ->
  is_error_event ev = Ok true ->
  error_event_response ev (update_ids ev st) = Ok resp ->
  exists st', loop_body self st line = YieldReturn (Dumps true resp) self' st'.
Proof.
  intros L E X. unfold loop_body. rewrite L, E.
  set (st0 := if done (keepalive_task st) then st
              else set_task st (cancel (keepalive_task st))).
  assert (same_ids st0 st) as S0
      by (subst st0; destruct (done (keepalive_task st));
          [apply same_ids_refl | apply same_ids_set_task]).
  rewrite (error_event_response_same ev (update_ids_same ev S0)), X.
  eexists. reflexivity.
Qed.

(** What the generator yields when the loop ends in each of its ways. *)
Lemma process_dify_stream_by_loop fired self src :
  yielded (process_dify_stream fired self src) =
  match run_lines fired 0 self initial_locals (lines src) with
  | YieldReturn y _ _ => [y]
  | Next _ st1 =>
      [Dumps true
         (_create_error_response
            (JString
               match finish src with
               | EndOfStream => u "Stream ended without workflow completion"
               | UpstreamRaises msg => u "Stream processing error: " ++ msg
               end)
            (workflow_run_id st1) (task_id st1))]
  | Escapes e _ st1 =>
      [Dumps true
         (_create_error_response
            (JString (u "Stream processing error: " ++ exn_str e))
            (workflow_run_id st1) (task_id st1))]
  end.
Proof.
  unfold process_dify_stream, try_block.
  destruct (run_lines fired 0 self initial_locals (lines src))
    as [s1 st1|y1 s1 st1|e1 s1 st1]; [|reflexivity|reflexivity].
  destruct (await_ids fired (List.length (lines src)) st1) as (W & T & _).
  destruct (finish src); cbn [yielded locals_after app exn_str];
    rewrite W, T; reflexivity.
Qed.

(** C1.  Every run of [process_dify_stream] yields exactly one value, on
    every path.  (1) The list of the values yielded has one element, a
    SimplifiedResult or an ErrorResult.  (2) When the lines before it were
    consumed without a yield, a record that passes the error check, is
    classified as finished and from which a result is extracted makes the
    run yield that result, a SimplifiedResult, and nothing else, whatever
    follows.  (3) In the same position a record that the error check
    accepts and whose error text can be read makes the run yield the
    ErrorResult built from it and nothing else.  (4) When every line is
    consumed without a yield, the run yields one ErrorResult: [Stream ended
    without workflow completion] when the source ends, and [Stream
    processing error:] followed by the text of the exception when the
    source raises.  (5) When an exception escapes the body of the loop,
    the run yields the ErrorResult [Stream processing error:] followed by
    its text. *)
Theorem process_dify_stream_yields_exactly_one
    (fired : nat -> bool) (self : SSEProcessor) :
  (forall src,
     exists y,
       yielded (process_dify_stream fired self src) = [y] /\
       (is_SimplifiedResult y \/ is_ErrorResult y) /\
       match run_lines fired 0 self initial_locals (lines src) with
       | YieldReturn y' _ _ => y = y'
       | Next _ _ | Escapes _ _ _ => is_ErrorResult y
       end) /\
  (forall pre line post fin self1 st1 self2 ev r,
     run_lines fired 0 self initial_locals pre = Next self1 st1 ->
     _parse_sse_line self1 line = (self2, Some ev) ->
     is_error_event ev = Ok false ->
     _is_workflow_finished_event ev = true ->
     _extract_workflow_result ev = Some r ->
     yielded (process_dify_stream fired self
                {| lines := pre ++ line :: post; finish := fin |})
     = [Dumps false r] /\
     is_SimplifiedResult (Dumps false r)) /\
  (forall pre line post fin self1 st1 self2 ev resp,
     run_lines fired 0 self initial_locals pre = Next self1 st1 ->
     _parse_sse_line self1 line = (self2, Some ev) ->
     is_error_event ev = Ok true ->
     error_event_response ev (update_ids ev st1) = Ok resp ->
     yielded (process_dify_stream fired self
                {| lines := pre ++ line :: post; finish := fin |})
     = [Dumps true resp] /\
     is_ErrorResult (Dumps true resp)) /\
  (forall ls fin self1 st1,
     run_lines fired 0 self initial_locals ls = Next self1 st1 ->
     yielded (process_dify_stream fired self {| lines := ls; finish := fin |})
     = [Dumps true
          (_create_error_response
             (JString
                match fin with
                | EndOfStream => u "Stream ended without workflow completion"
                | UpstreamRaises msg => u "Stream processing error: " ++ msg
                end)
             (workflow_run_id st1) (task_id st1))]) /\
  (forall ls fin e self1 st1,
     run_lines fired 0 self initial_locals ls = Escapes e self1 st1 ->
     yielded (process_dify_stream fired self {| lines := ls; finish := fin |})
     = [Dumps true
          (_create_error_response
             (JString (u "Stream processing error: " ++ exn_str e))
             (workflow_run_id st1) (task_id st1))]).
Proof.
  split; [intros src; apply process_dify_stream_single_yield|].
  split; [|split; [|split]].
  - intros pre line post fin self1 st1 self2 ev r R L E F X.
    split; [|eapply extract_workflow_result_shape, X].
    rewrite process_dify_stream_by_loop. cbn [lines finish].
    rewrite run_lines_app, R. cbn [run_lines].
    destruct (loop_body_finished self1 (await fired (0 + List.length pre) st1)
                line L E F X) as (st' & ->).
    reflexivity.
  - intros pre line post fin self1 st1 self2 ev resp R L E X.
    split; [|eapply error_event_response_shape, X].
    rewrite process_dify_stream_by_loop. cbn [lines finish].
    rewrite run_lines_app, R. cbn [run_lines].
    assert (error_event_response ev
              (update_ids ev (await fired (0 + List.length pre) st1)) = Ok resp) as X'.
    { rewrite <- X. apply error_event_response_same, update_ids_same,
        same_ids_await. }
    destruct (loop_body_error self1 (await fired (0 + List.length pre) st1)
                line L E X') as (st' & ->).
    reflexivity.
  - intros ls fin self1 st1 R.
    rewrite process_dify_stream_by_loop. cbn [lines finish]. rewrite R.
    reflexivity.
  - intros ls fin e self1 st1 R.
    rewrite process_dify_stream_by_loop. cbn [lines finish]. rewrite R.
    reflexivity.
Qed.

Lemma process_dify_stream_yields_exactly_one_witness :
  (run_lines never_fires 0 sse_processor initial_locals [Samples.started_line]
     = Next sse_processor Samples.started_locals /\
   _parse_sse_line sse_processor Samples.anonymous_finished_line
     = (sse_processor, Some Samples.anonymous_finished_event) /\
   is_error_event Samples.anonymous_finished_event = Ok false /\
   _is_workflow_finished_event Samples.anonymous_finished_event = true /\
   _extract_workflow_result Samples.anonymous_finished_event
     = Some Samples.anonymous_finished_result /\
   yielded (process_dify_stream never_fires sse_processor
              {| lines := [Samples.started_line]
                            ++ Samples.anonymous_finished_line
                            :: [Samples.error_boom_line];
                 finish := EndOfStream |})
     = [Dumps false Samples.anonymous_finished_result] /\
   is_SimplifiedResult (Dumps false Samples.anonymous_finished_result))
  /\
  (_parse_sse_line sse_processor Samples.error_boom_line
     = (sse_processor, Some Samples.error_boom_event) /\
   is_error_event Samples.error_boom_event = Ok true /\
   error_event_response Samples.error_boom_event
     (update_ids Samples.error_boom_event Samples.started_locals)
     = Ok (_create_error_response (JString (u "boom"))
             (JString (u "456")) (JString (u "t1"))) /\
   yielded (process_dify_stream never_fires sse_processor
              {| lines := [Samples.started_line]
                            ++ Samples.error_boom_line
                            :: [Samples.anonymous_finished_line];
                 finish := EndOfStream |})
     = [Dumps true (_create_error_response (JString (u "boom"))
                      (JString (u "456")) (JString (u "t1")))] /\
   is_ErrorResult (Dumps true (_create_error_response (JString (u "boom"))
                                 (JString (u "456")) (JString (u "t1"))))).
Proof.
  split.
  - split; [vm_compute; reflexivity|]. split; [vm_compute; reflexivity|].
    split; [vm_compute; reflexivity|]. split; [vm_compute; reflexivity|].
    split; [vm_compute; reflexivity|].
    exact (proj1 (proj2 (process_dify_stream_yields_exactly_one
                           never_fires sse_processor))
             [Samples.started_line] Samples.anonymous_finished_line
             [Samples.error_boom_line] EndOfStream
             sse_processor Samples.started_locals sse_processor
             Samples.anonymous_finished_event Samples.anonymous_finished_result
             ltac:(vm_compute; reflexivity) ltac:(vm_compute; reflexivity)
             ltac:(vm_compute; reflexivity) ltac:(vm_compute; reflexivity)
             ltac:(vm_compute; reflexivity)).
  - split; [vm_compute; reflexivity|]. split; [vm_compute; reflexivity|].
    split; [vm_compute; reflexivity|].
    exact (proj1 (proj2 (proj2 (process_dify_stream_yields_exactly_one
                                  never_fires sse_processor)))
             [Samples.started_line] Samples.error_boom_line
             [Samples.anonymous_finished_line] EndOfStream
             sse_processor Samples.started_locals sse_processor
             Samples.error_boom_event
             (_create_error_response (JString (u "boom"))
                (JString (u "456")) (JString (u "t1")))
             ltac:(vm_compute; reflexivity) ltac:(vm_compute; reflexivity)
             ltac:(vm_compute; reflexivity) ltac:(vm_compute; reflexivity)).
Defined.

(* ================================================================== *)
(** ** The scenarios of the specification *)

Example scenario_finished :
  yielded (process_dify_stream never_fires sse_processor
             (Samples.ends [u "event: workflow_finished"; Samples.finished_line]))
  = [Samples.finished_output].
Proof. vm_compute. reflexivity. Qed.

Example scenario_no_record :
  snd (_parse_sse_line sse_processor []) = None /\
  snd (_parse_sse_line sse_processor (u ": ping")) = None /\
  snd (_parse_sse_line sse_processor (u "event: node_started")) = None /\
  snd (_parse_sse_line sse_processor (u "data:")) = None /\
  snd (_parse_sse_line sse_processor (u "retry: 10")) = None.
Proof. repeat split; vm_compute; reflexivity. Qed.

Example scenario_upstream_raises :
  yielded (process_dify_stream never_fires sse_processor
             {| lines := [Samples.started_line];
                finish := UpstreamRaises (u "Dify API timeout: read") |})
  = [Dumps true (JObject [(u "workflow_run_id", JString (u "456"));
                          (u "task_id", JString (u "unknown"));
                          (u "status", JString (u "error"));
                          (u "error",
                            JString (u "Stream processing error: Dify API timeout: read"));
                          (u "event_type", JString (u "error"))])].
Proof. vm_compute. reflexivity. Qed.

(* ================================================================== *)
(** * Further properties of the code *)

Unset Implicit Arguments.

(** ** Trimming *)

Lemma lstrip_head (s : str) :
  lstrip s = [] \/ exists c t, lstrip s = c :: t /\ isspace c = false.
Proof.
  induction s as [|c s IH]; [left; reflexivity|].
  cbn [lstrip]. destruct (isspace c) eqn:E; [exact IH|].
  right. exists c, s. split; [reflexivity | exact E].
Qed.

Lemma lstrip_fixed (s : str) :
  (s = [] \/ exists c t, s = c :: t /\ isspace c = false) -> lstrip s = s.
Proof.
  intros [-> | (c & t & -> & E)]; [reflexivity|].
  cbn [lstrip]. rewrite E. reflexivity.
Qed.

Lemma lstrip_idem (s : str) : lstrip (lstrip s) = lstrip s.
Proof. apply lstrip_fixed, lstrip_head. Qed.

Lemma lstrip_suffix (s : str) : exists p, s = p ++ lstrip s.
Proof.
  induction s as [|c s (p & IH)]; [exists []; reflexivity|].
  cbn [lstrip]. destruct (isspace c).
  - exists (c :: p). cbn [app]. rewrite <- IH. reflexivity.
  - exists []. reflexivity.
Qed.

Lemma lstrip_app_last (a : str) (c : char) :
  isspace c = false -> lstrip (a ++ [c]) = lstrip a ++ [c].
Proof.
  intros E. induction a as [|x a IH]; cbn [app lstrip].
  - rewrite E. reflexivity.
  - destruct (isspace x); [exact IH | reflexivity].
Qed.

Lemma rstrip_cons (c : char) (t : str) :
  isspace c = false -> rstrip (c :: t) = c :: rstrip t.
Proof.
  intros E. unfold rstrip. cbn [rev].
  rewrite (lstrip_app_last _ c E), rev_app_distr. reflexivity.
Qed.

Lemma rstrip_idem (s : str) : rstrip (rstrip s) = rstrip s.
Proof. unfold rstrip. rewrite rev_involutive, lstrip_idem. reflexivity. Qed.

(** [strip] is idempotent: a trimmed text has nothing left to trim. *)
Lemma strip_idem (s : str) : strip (strip s) = strip s.
Proof.
  unfold strip.
  assert (lstrip (rstrip (lstrip s)) = rstrip (lstrip s)) as ->.
  { apply lstrip_fixed.
    destruct (lstrip_head s) as [-> | (c & t & -> & E)]; [left; reflexivity|].
    right. exists c, (rstrip t). split; [apply rstrip_cons, E | exact E]. }
  apply rstrip_idem.
Qed.

Lemma has_newline_rev (s : str) : has_newline (rev s) = has_newline s.
Proof.
  induction s as [|c s IH]; [reflexivity|].
  cbn [rev]. rewrite has_newline_app, IH.
  change (c :: s) with ([c] ++ s). rewrite (has_newline_app [c] s).
  apply orb_comm.
Qed.

Lemma has_newline_lstrip (s : str) :
  has_newline s = false -> has_newline (lstrip s) = false.
Proof.
  destruct (lstrip_suffix s) as (p & E). intros H. rewrite E in H.
  unfold has_newline in *. rewrite existsb_app in H.
  apply orb_false_iff in H. apply H.
Qed.

Lemma has_newline_strip (s : str) :
  has_newline s = false -> has_newline (strip s) = false.
Proof.
  intros H. unfold strip, rstrip. rewrite has_newline_rev.
  apply has_newline_lstrip. rewrite has_newline_rev.
  apply has_newline_lstrip, H.
Qed.

Lemma nonempty_true (s : str) : nonempty s = true <-> s <> [].
Proof. destruct s; cbn; split; congruence. Qed.

(* ================================================================== *)
(** ** The lines the client yields *)

Section ClientLines.

Import DifyClient.

(** What is asked of a line handed to the processor. *)
Let clean (l : str) : Prop := l <> [] /\ strip l = l /\ has_newline l = false.

Lemma yield_line_clean (x : str) :
  has_newline x = false -> forall l, In l (yield_line x) -> clean l.
Proof.
  intros H l. unfold yield_line.
  destruct (nonempty (strip x)) eqn:E; [|contradiction].
  intros [<- | []]. repeat split.
  - apply nonempty_true, E.
  - apply strip_idem.
  - apply has_newline_strip, H.
Qed.

Lemma text_lines_clean (s : str) : forall cur,
  has_newline cur = false ->
  forall l, In l (fst (text_lines cur s)) -> clean l.
Proof.
  induction s as [|c s IH]; intros cur H l; cbn [text_lines].
  - contradiction.
  - destruct (N.eqb c LF) eqn:E.
    + specialize (IH [] eq_refl l).
      destruct (text_lines [] s) as [ls b]. cbn [fst] in *.
      rewrite in_app_iff. intros [I | I]; [|apply IH, I].
      eapply yield_line_clean; eassumption.
    + apply IH. rewrite has_newline_app, H. unfold has_newline.
      cbn [existsb]. rewrite N.eqb_sym, E. reflexivity.
Qed.

(** X1.  Every line [execute_workflow_stream] yields is non-empty, has
    no whitespace at either end, and contains no newline, whatever the
    chunks. *)
Theorem execute_workflow_stream_lines_clean (chunks : list bytes) (l : str) :
  In l (execute_workflow_stream chunks) ->
  l <> [] /\ strip l = l /\ has_newline l = false.
Proof.
  unfold execute_workflow_stream.
  rewrite (reassemble_text chunks [] eq_refl). cbn [app].
  pose proof (text_lines_clean
                (List.concat (List.map decode_utf8_ignore chunks)) [] eq_refl l) as T.
  pose proof (text_lines_rest
                (List.concat (List.map decode_utf8_ignore chunks)) [] eq_refl) as R.
  destruct (text_lines [] (List.concat (List.map decode_utf8_ignore chunks))) as [ls b].
  cbn [fst snd] in *. rewrite in_app_iff. intros [I | I]; [apply T, I|].
  eapply yield_line_clean; eassumption.
Qed.

Lemma execute_workflow_stream_lines_clean_witness :
  In (u "data: x") (execute_workflow_stream [list_byte_of_string "  data: x  "; [x0a]]) /\
  (u "data: x" <> [] /\ strip (u "data: x") = u "data: x"
   /\ has_newline (u "data: x") = false).
Proof.
  split; [vm_compute; left; reflexivity|].
  apply (execute_workflow_stream_lines_clean
           [list_byte_of_string "  data: x  "; [x0a]] (u "data: x")).
  vm_compute. left. reflexivity.
Defined.

Lemma text_lines_terminated (s cur : str) :
  text_lines cur (s ++ [LF]) =
  (fst (text_lines cur s) ++ yield_line (snd (text_lines cur s)), []).
Proof.
  rewrite text_lines_app. destruct (text_lines cur s) as [la ra].
  cbn [text_lines fst snd]. rewrite N.eqb_refl. rewrite app_nil_r. reflexivity.
Qed.

(** X2.  Bodies compose at line boundaries: when the decoded text of the
    first chunks ends with a newline, the lines of the whole body are the
    lines of the first chunks followed by the lines of the others. *)
Theorem execute_workflow_stream_app (cs1 cs2 : list bytes) (t : str) :
  List.concat (List.map decode_utf8_ignore cs1) = t ++ [LF] ->
  execute_workflow_stream (cs1 ++ cs2) =
  execute_workflow_stream cs1 ++ execute_workflow_stream cs2.
Proof.
  intros E. unfold execute_workflow_stream.
  rewrite !(fun c => reassemble_text c [] eq_refl). cbn [app].
  rewrite List.map_app, List.concat_app, E.
  rewrite text_lines_app, text_lines_terminated.
  destruct (text_lines [] t) as [la ra]. cbn [fst snd yield_line app].
  destruct (text_lines [] (List.concat (List.map decode_utf8_ignore cs2))) as [lb rb].
  unfold yield_line at 3. cbn. rewrite app_nil_r, <- !app_assoc. reflexivity.
Qed.

Lemma execute_workflow_stream_app_witness :
  List.concat (List.map decode_utf8_ignore [list_byte_of_string "event: a"; [x0a]])
    = u "event: a" ++ [LF] /\
  execute_workflow_stream
    ([list_byte_of_string "event: a"; [x0a]] ++ [list_byte_of_string "data: b"]) =
  execute_workflow_stream [list_byte_of_string "event: a"; [x0a]]
    ++ execute_workflow_stream [list_byte_of_string "data: b"].
Proof.
  split; [vm_compute; reflexivity|].
  apply (execute_workflow_stream_app
           [list_byte_of_string "event: a"; [x0a]] [list_byte_of_string "data: b"]
           (u "event: a")).
  vm_compute. reflexivity.
Defined.

End ClientLines.

(* ================================================================== *)
(** ** The parser *)

Lemma is_ignored_parse (self : SSEProcessor) (line : str) :
  is_ignored line = true -> _parse_sse_line self line = (self, None).
Proof.
  unfold is_ignored, _parse_sse_line.
  destruct (negb (nonempty (strip line)) || startswith (u ":") (strip line));
    [reflexivity|].
  cbn [orb]. destruct (startswith (u "event:") (strip line)); [discriminate|].
  cbn [negb andb]. destruct (startswith (u "data:") (strip line)); [|reflexivity].
  cbn [negb orb]. intros ->. reflexivity.
Qed.

Lemma not_ignored_parse (self : SSEProcessor) (line : str) :
  is_ignored line = false ->
  (startswith (u "event:") (strip line) = true /\
   _parse_sse_line self line
     = ({| _current_event := Some (strip (skipn 6 (strip line))) |}, None)) \/
  (startswith (u "event:") (strip line) = false /\
   startswith (u "data:") (strip line) = true /\
   nonempty (strip (skipn 5 (strip line))) = true /\
   _parse_sse_line self line
     = (self, Some {| event := current_event_type self;
                      data := strip (skipn 5 (strip line)) |})).
Proof.
  unfold is_ignored, _parse_sse_line, current_event_type.
  destruct (negb (nonempty (strip line)) || startswith (u ":") (strip line));
    [discriminate|].
  cbn [orb]. destruct (startswith (u "event:") (strip line)); [left; auto|].
  cbn [negb andb]. destruct (startswith (u "data:") (strip line)); [|discriminate].
  cbn [negb orb]. destruct (nonempty (strip (skipn 5 (strip line)))); [|discriminate].
  intros _. right. auto.
Qed.

(** X3.  What [_parse_sse_line] does with a line, in full.  Either the
    line is one of those passed over (blank, comment, empty data, unknown
    field): no record, instance untouched.  Or it is an event line: no
    record, and the instance holds the trimmed remainder as event type.
    Or it is a data line: the instance is untouched and the record
    carries the event type held by the instance (message when none was
    ever set) and a payload that is non-empty and trimmed.  Whitespace
    around the line makes no difference. *)
Theorem parse_sse_line_cases (self : SSEProcessor) (line : str) :
  _parse_sse_line self (strip line) = _parse_sse_line self line /\
  ((is_ignored line = true /\ _parse_sse_line self line = (self, None)) \/
   (startswith (u "event:") (strip line) = true /\
    exists t, _parse_sse_line self line = ({| _current_event := Some t |}, None) /\
              t = strip (skipn 6 (strip line)) /\ strip t = t) \/
   (startswith (u "data:") (strip line) = true /\
    exists ev, _parse_sse_line self line = (self, Some ev) /\
               event ev = current_event_type self /\
               data ev = strip (skipn 5 (strip line)) /\
               data ev <> [] /\ strip (data ev) = data ev)).
Proof.
  split.
  - unfold _parse_sse_line. rewrite strip_idem. reflexivity.
  - destruct (is_ignored line) eqn:I.
    + left. split; [reflexivity | apply is_ignored_parse, I].
    + right. destruct (not_ignored_parse self line I) as [[E P] | (_ & D & N & P)].
      * left. split; [exact E|]. eexists. split; [exact P|].
        split; [reflexivity | apply strip_idem].
      * right. split; [exact D|]. eexists. split; [exact P|]. cbn [event data].
        repeat split; [apply nonempty_true, N | apply strip_idem].
Qed.

Lemma parse_lines_no_event (ls : list str) : forall self,
  (forall l, In l ls -> startswith (u "event:") (strip l) = false) ->
  fst (parse_lines self ls) = self /\
  forall ev, In ev (snd (parse_lines self ls)) -> event ev = current_event_type self.
Proof.
  induction ls as [|l ls IH]; intros self H; cbn [parse_lines].
  - split; [reflexivity | intros ev []].
  - assert (exists r, _parse_sse_line self l = (self, r) /\
                      forall ev, r = Some ev -> event ev = current_event_type self)
      as (r & P & R).
    { destruct (is_ignored l) eqn:I.
      - exists None. split; [apply is_ignored_parse, I | discriminate].
      - destruct (not_ignored_parse self l I) as [[E _] | (_ & _ & _ & P)].
        + rewrite (H l (or_introl eq_refl)) in E. discriminate.
        + eexists. split; [exact P|]. intros ev [= <-]. reflexivity. }
    rewrite P.
    destruct (IH self (fun x Hx => H x (or_intror Hx))) as [F A].
    destruct (parse_lines self ls) as [self2 records]. cbn [fst snd] in *.
    split; [exact F|].
    destruct r as [ev0|]; [|exact A].
    intros ev [<- | I]; [apply R; reflexivity | apply A, I].
Qed.

(** X4.  The event type persists.  After an event line, every data line
    that comes before the next event line gives a record with the trimmed
    remainder of that event line as its event type, however many data
    lines there are and whatever else lies between them; and the
    instance still holds that event type afterwards. *)
Theorem event_type_persists (self : SSEProcessor) (event_line : str) (ls : list str) :
  startswith (u "event:") (strip event_line) = true ->
  (forall l, In l ls -> startswith (u "event:") (strip l) = false) ->
  _current_event (fst (parse_lines self (event_line :: ls)))
    = Some (strip (skipn 6 (strip event_line))) /\
  forall ev, In ev (snd (parse_lines self (event_line :: ls))) ->
             event ev = strip (skipn 6 (strip event_line)).
Proof.
  intros E H. cbn [parse_lines].
  assert (is_ignored event_line = false) as I.
  { unfold is_ignored. rewrite E. cbn [negb andb].
    destruct (strip event_line) as [|c r] eqn:S; [discriminate|].
    cbn [nonempty negb orb].
    destruct (startswith (u ":") (c :: r)) eqn:C; [|reflexivity].
    exfalso. revert E C. cbn [u List.map list_ascii_of_string startswith].
    destruct (N.eqb (N_of_ascii "e") c) eqn:X; [|discriminate].
    apply N.eqb_eq in X. subst c. intros _. vm_compute. discriminate. }
  destruct (not_ignored_parse self event_line I) as [[_ P] | (E' & _)];
    [|congruence].
  rewrite P.
  destruct (parse_lines_no_event ls
              {| _current_event := Some (strip (skipn 6 (strip event_line))) |} H)
    as [F A].
  destruct (parse_lines _ ls) as [self2 records]. cbn [fst snd] in *.
  subst self2. split; [reflexivity | exact A].
Qed.

Lemma event_type_persists_witness :
  startswith (u "event:") (strip (u "event: node_started")) = true /\
  (forall l, In l [u "data: 1"; u ": ping"; u "data: 2"] ->
             startswith (u "event:") (strip l) = false) /\
  _current_event (fst (parse_lines sse_processor
                         (u "event: node_started" :: [u "data: 1"; u ": ping"; u "data: 2"])))
    = Some (strip (skipn 6 (strip (u "event: node_started")))) /\
  forall ev, In ev (snd (parse_lines sse_processor
                           (u "event: node_started" :: [u "data: 1"; u ": ping"; u "data: 2"]))) ->
             event ev = strip (skipn 6 (strip (u "event: node_started"))).
Proof.
  assert (forall l, In l [u "data: 1"; u ": ping"; u "data: 2"] ->
                    startswith (u "event:") (strip l) = false) as H.
  { intros l [<- | [<- | [<- | []]]]; vm_compute; reflexivity. }
  split; [vm_compute; reflexivity|]. split; [exact H|].
  apply (event_type_persists sse_processor (u "event: node_started")
           [u "data: 1"; u ": ping"; u "data: 2"]);
    [vm_compute; reflexivity | exact H].
Defined.

(* ================================================================== *)
(** ** The loop over whole streams *)

(** Two loops that end the same way give the same run. *)
Lemma process_same (f1 f2 : nat -> bool) (self : SSEProcessor)
    (ls1 ls2 : list str) (fin : ending) :
  same_control (run_lines f1 0 self initial_locals ls1)
               (run_lines f2 0 self initial_locals ls2) ->
  yielded (process_dify_stream f1 self {| lines := ls1; finish := fin |})
    = yielded (process_dify_stream f2 self {| lines := ls2; finish := fin |}) /\
  self_after (process_dify_stream f1 self {| lines := ls1; finish := fin |})
    = self_after (process_dify_stream f2 self {| lines := ls2; finish := fin |}) /\
  same_ids (locals_after (process_dify_stream f1 self {| lines := ls1; finish := fin |}))
           (locals_after (process_dify_stream f2 self {| lines := ls2; finish := fin |})).
Proof.
  intros R. unfold process_dify_stream, try_block. cbn [lines finish].
  destruct (run_lines f1 0 self initial_locals ls1) as [s1 a|y1 s1 a|e1 s1 a],
           (run_lines f2 0 self initial_locals ls2) as [s2 b|y2 s2 b|e2 s2 b];
    cbn in R; try contradiction.
  - destruct R as [<- S].
    assert (same_ids (await f1 (List.length ls1) a) (await f2 (List.length ls2) b))
      as [W T].
    { eapply same_ids_trans; [apply same_ids_await|].
      eapply same_ids_trans; [exact S|]. apply same_ids_sym, same_ids_await. }
    destruct fin; cbn [yielded self_after locals_after app];
      rewrite W, T; repeat split; assumption.
  - destruct R as (<- & <- & S). cbn. repeat split; apply S.
  - destruct R as (<- & <- & [W T]). cbn [yielded self_after locals_after app].
    rewrite W, T. repeat split; assumption.
Qed.

Lemma loop_body_ignored (self : SSEProcessor) (st : locals) (line : str) :
  is_ignored line = true ->
  exists st0, loop_body self st line = Next self st0 /\ same_ids st0 st.
Proof.
  intros I. unfold loop_body. rewrite (is_ignored_parse self line I).
  eexists. split; [reflexivity|].
  destruct (done (keepalive_task st)); [apply same_ids_refl | apply same_ids_set_task].
Qed.

Lemma run_lines_ignored (f1 f2 : nat -> bool) (ls : list str) :
  forall n1 n2 self a b,
  same_ids a b ->
  same_control
    (run_lines f1 n1 self a (filter (fun l => negb (is_ignored l)) ls))
    (run_lines f2 n2 self b ls).
Proof.
  induction ls as [|l ls IH]; intros n1 n2 self a b S; cbn [filter run_lines].
  - cbn. auto.
  - destruct (is_ignored l) eqn:I; cbn [negb].
    + destruct (loop_body_ignored self (await f2 n2 b) l I) as (st0 & -> & S0).
      apply IH. eapply same_ids_trans; [exact S|].
      apply same_ids_sym. eapply same_ids_trans; [exact S0 | apply same_ids_await].
    + cbn [run_lines].
      assert (same_ids (await f1 n1 a) (await f2 n2 b)) as S1.
      { eapply same_ids_trans; [apply same_ids_await|].
        eapply same_ids_trans; [exact S|]. apply same_ids_sym, same_ids_await. }
      pose proof (loop_body_same self l S1) as B.
      destruct (loop_body self (await f1 n1 a) l), (loop_body self (await f2 n2 b) l);
        cbn in B; try contradiction.
      * destruct B as [<- B]. apply IH, B.
      * exact B.
      * exact B.
Qed.

(** X5.  Lines the parser passes over are transparent.  Removing every
    blank line, comment, empty data line and line of an unknown field
    from a stream changes neither the value yielded nor the instance left
    behind nor the identifiers, whatever the timers do. *)
Theorem ignored_lines_are_transparent
    (f1 f2 : nat -> bool) (self : SSEProcessor) (ls : list str) (fin : ending) :
  yielded (process_dify_stream f1 self
             {| lines := filter (fun l => negb (is_ignored l)) ls; finish := fin |})
    = yielded (process_dify_stream f2 self {| lines := ls; finish := fin |}) /\
  self_after (process_dify_stream f1 self
                {| lines := filter (fun l => negb (is_ignored l)) ls; finish := fin |})
    = self_after (process_dify_stream f2 self {| lines := ls; finish := fin |}).
Proof.
  destruct (process_same f1 f2 self
              (filter (fun l => negb (is_ignored l)) ls) ls fin
              (run_lines_ignored f1 f2 ls 0 0 self initial_locals initial_locals
                 (same_ids_refl _))) as (Y & S & _).
  split; assumption.
Qed.

(** X6.  The run is decided by the lines up to the first one that makes
    the loop yield or raise: what follows, and how the source ends, is
    never looked at. *)
Theorem run_decided_by_prefix
    (fired : nat -> bool) (self : SSEProcessor) (pre post : list str)
    (fin fin' : ending) :
  (forall s st, run_lines fired 0 self initial_locals pre <> Next s st) ->
  process_dify_stream fired self {| lines := pre ++ post; finish := fin |}
  = process_dify_stream fired self {| lines := pre; finish := fin' |}.
Proof.
  intros H. unfold process_dify_stream, try_block. cbn [lines finish].
  rewrite run_lines_app.
  destruct (run_lines fired 0 self initial_locals pre) as [s st| |];
    [exfalso; eapply H; reflexivity | reflexivity | reflexivity].
Qed.

Lemma run_decided_by_prefix_witness :
  (forall s st, run_lines never_fires 0 sse_processor initial_locals
                  [Samples.finished_line] <> Next s st) /\
  process_dify_stream never_fires sse_processor
    {| lines := [Samples.finished_line] ++ [Samples.number_line];
       finish := UpstreamRaises (u "reset") |}
  = process_dify_stream never_fires sse_processor
      {| lines := [Samples.finished_line]; finish := EndOfStream |}.
Proof.
  assert (forall s st, run_lines never_fires 0 sse_processor initial_locals
                         [Samples.finished_line] <> Next s st) as H
      by (intros s st; vm_compute; discriminate).
  split; [exact H|].
  apply (run_decided_by_prefix never_fires sse_processor [Samples.finished_line]
           [Samples.number_line] (UpstreamRaises (u "reset")) EndOfStream H).
Defined.

Lemma is_error_event_finished (ev : DifySSEEvent) (d : dict) :
  str_eqb (event ev) (u "error") = false ->
  parse_data ev = Ok (JObject d) ->
  dict_get d (u "event") = Some (JString (u "workflow_finished")) ->
  is_error_event ev = Ok false /\ _is_workflow_finished_event ev = true.
Proof.
  intros T P E. unfold is_error_event, _is_workflow_finished_event.
  rewrite T, P. cbn [bind py_get]. unfold dict_get_default. rewrite E.
  split; reflexivity.
Qed.

(** X7.  The finished event.  When the lines before it were all consumed
    without a yield, a record whose SSE event type is not error, whose
    data decodes to an object with event equal to workflow_finished, and
    from which extraction succeeds, makes the processor yield exactly the
    extracted result and stop.  The identifiers of that result are those
    of the record itself, the empty string when it has none: identifiers
    accumulated from earlier records are not used. *)
Theorem finished_envelope_ends_stream
    (fired : nat -> bool) (self : SSEProcessor) (pre : list str) (line : str)
    (post : list str) (fin : ending)
    (self1 : SSEProcessor) (st1 : locals) (self2 : SSEProcessor)
    (ev : DifySSEEvent) (d : dict) (r : json) :
  run_lines fired 0 self initial_locals pre = Next self1 st1 ->
  _parse_sse_line self1 line = (self2, Some ev) ->
  str_eqb (event ev) (u "error") = false ->
  parse_data ev = Ok (JObject d) ->
  dict_get d (u "event") = Some (JString (u "workflow_finished")) ->
  _extract_workflow_result ev = Some r ->
  yielded (process_dify_stream fired self
             {| lines := pre ++ line :: post; finish := fin |}) = [Dumps false r] /\
  self_after (process_dify_stream fired self
                {| lines := pre ++ line :: post; finish := fin |}) = self2 /\
  exists status result,
    r = JObject [(u "workflow_run_id", dict_get_default d (u "workflow_run_id") (JString []));
                 (u "task_id", dict_get_default d (u "task_id") (JString []));
                 (u "status", status);
                 (u "result", result);
                 (u "event_type", JString (u "workflow_finished"))].
Proof.
  intros R L T P E X.
  destruct (is_error_event_finished ev d T P E) as [NE F].
  destruct (@loop_body_finished self1 (await fired (0 + List.length pre) st1)
              line self2 ev r L NE F X) as (st' & B).
  unfold process_dify_stream, try_block. cbn [lines finish].
  rewrite run_lines_app, R. cbn [run_lines]. rewrite B.
  split; [reflexivity|]. split; [reflexivity|].
  revert X. unfold _extract_workflow_result. rewrite P. cbn [bind py_get].
  repeat match goal with
         | |- context [bind ?m _] => destruct m; cbn [bind]
         end; try discriminate.
  intros [= <-]. eauto.
Qed.

Lemma finished_envelope_ends_stream_witness :
  run_lines never_fires 0 sse_processor initial_locals [Samples.started_line]
    = Next sse_processor Samples.started_locals /\
  _parse_sse_line sse_processor Samples.anonymous_finished_line
    = (sse_processor, Some Samples.anonymous_finished_event) /\
  str_eqb (event Samples.anonymous_finished_event) (u "error") = false /\
  parse_data Samples.anonymous_finished_event
    = Ok (JObject Samples.anonymous_finished_envelope) /\
  dict_get Samples.anonymous_finished_envelope (u "event")
    = Some (JString (u "workflow_finished")) /\
  _extract_workflow_result Samples.anonymous_finished_event
    = Some Samples.anonymous_finished_result /\
  yielded (process_dify_stream never_fires sse_processor
             {| lines := [Samples.started_line] ++ Samples.anonymous_finished_line :: [];
                finish := EndOfStream |})
    = [Dumps false Samples.anonymous_finished_result].
Proof.
  split; [vm_compute; reflexivity|]. split; [vm_compute; reflexivity|].
  split; [vm_compute; reflexivity|]. split; [vm_compute; reflexivity|].
  split; [vm_compute; reflexivity|]. split; [vm_compute; reflexivity|].
  exact (proj1 (finished_envelope_ends_stream never_fires sse_processor
           [Samples.started_line] Samples.anonymous_finished_line [] EndOfStream
           sse_processor Samples.started_locals sse_processor
           Samples.anonymous_finished_event Samples.anonymous_finished_envelope
           Samples.anonymous_finished_result
           ltac:(vm_compute; reflexivity) ltac:(vm_compute; reflexivity)
           ltac:(vm_compute; reflexivity) ltac:(vm_compute; reflexivity)
           ltac:(vm_compute; reflexivity) ltac:(vm_compute; reflexivity))).
Defined.

(* ================================================================== *)
(** ** Identifiers *)

Lemma loop_body_next_self (self : SSEProcessor) (st : locals) (line : str)
    (self' : SSEProcessor) (st' : locals) :
  loop_body self st line = Next self' st' ->
  self' = fst (_parse_sse_line self line).
Proof.
  unfold loop_body.
  destruct (_parse_sse_line self line) as [self1 [ev|]]; cbn [fst].
  - repeat (break_match; try discriminate); intros [= <- _]; reflexivity.
  - intros [= <- _]. reflexivity.
Qed.

Lemma fold_update_ids_same (records : list DifySSEEvent) : forall a b,
  same_ids a b ->
  same_ids (fold_left (fun st ev => update_ids ev st) records a)
           (fold_left (fun st ev => update_ids ev st) records b).
Proof.
  induction records as [|ev records IH]; intros a b S; cbn [fold_left].
  - exact S.
  - apply IH, update_ids_same, S.
Qed.

Lemma run_lines_accumulates (fired : nat -> bool) (ls : list str) :
  forall n self st self' st',
  run_lines fired n self st ls = Next self' st' ->
  self' = fst (parse_lines self ls) /\
  same_ids st' (fold_left (fun s ev => update_ids ev s) (snd (parse_lines self ls)) st).
Proof.
  induction ls as [|l ls IH]; intros n self st self' st'; cbn [run_lines parse_lines].
  - intros [= <- <-]. split; [reflexivity | apply same_ids_refl].
  - destruct (loop_body self (await fired n st) l) as [s1 st1|y s1 st1|e s1 st1] eqn:B;
      try discriminate.
    intros R. destruct (IH _ _ _ _ _ R) as [-> S].
    pose proof (loop_body_next_self _ _ _ _ _ B) as ->.
    pose proof (@loop_body_next_ids self (await fired n st) l _ st1 B) as I.
    destruct (_parse_sse_line self l) as [self1 parsed]. cbn [fst snd] in *.
    destruct (parse_lines self1 ls) as [self2 records]. cbn [fst snd] in *.
    split; [reflexivity|].
    eapply same_ids_trans; [exact S|].
    destruct parsed as [ev|]; cbn [fold_left]; apply fold_update_ids_same.
    + eapply same_ids_trans; [exact I|]. apply update_ids_same, same_ids_await.
    + eapply same_ids_trans; [exact I|]. apply same_ids_await.
Qed.

(** X8.  Accumulation of identifiers.  When the loop has consumed a whole
    stream without a yield, the instance is the one the parser leaves
    after those lines, and the identifiers are obtained by applying the
    update of lines 195-202 to the records of the stream, in order,
    starting from none: the last record that mentions an identifier
    decides it. *)
Theorem identifiers_accumulate
    (fired : nat -> bool) (self : SSEProcessor) (ls : list str)
    (self' : SSEProcessor) (st' : locals) :
  run_lines fired 0 self initial_locals ls = Next self' st' ->
  self' = fst (parse_lines self ls) /\
  same_ids st' (fold_left (fun st ev => update_ids ev st)
                          (snd (parse_lines self ls)) initial_locals).
Proof. apply run_lines_accumulates. Qed.

Lemma identifiers_accumulate_witness :
  run_lines never_fires 0 sse_processor initial_locals [Samples.started_line]
    = Next sse_processor Samples.started_locals /\
  sse_processor = fst (parse_lines sse_processor [Samples.started_line]) /\
  same_ids Samples.started_locals
    (fold_left (fun st ev => update_ids ev st)
               (snd (parse_lines sse_processor [Samples.started_line])) initial_locals).
Proof.
  split; [vm_compute; reflexivity|].
  apply (identifiers_accumulate never_fires sse_processor [Samples.started_line]
           sse_processor Samples.started_locals).
  vm_compute. reflexivity.
Defined.

Lemma py_or_truthy (x : json) (s : str) :
  s <> [] -> truthy (py_or x (JString s)) = true.
Proof.
  intros N. unfold py_or. destruct (truthy x) eqn:T; [exact T|].
  cbn [truthy]. apply nonempty_true, N.
Qed.

Lemma loop_body_yield_error (self : SSEProcessor) (st : locals) (line : str)
    (r : json) (self' : SSEProcessor) (st' : locals) :
  loop_body self st line = YieldReturn (Dumps true r) self' st' ->
  exists m w t, r = _create_error_response m w t.
Proof.
  unfold loop_body.
  destruct (_parse_sse_line self line) as [self1 [ev|]]; [|discriminate].
  destruct (is_error_event ev) as [[|]|e]; [| |discriminate].
  - destruct (error_event_response ev _) as [x|] eqn:E; [|discriminate].
    intros [= <- _ _]. revert E. unfold error_event_response.
    repeat match goal with
           | |- context [bind ?m _] => destruct m; cbn [bind]
           end; try discriminate.
    intros [= <-]. eauto.
  - repeat (break_match; try discriminate).
Qed.

Lemma run_lines_yield_error (fired : nat -> bool) (ls : list str) :
  forall n self st r self' st',
  run_lines fired n self st ls = YieldReturn (Dumps true r) self' st' ->
  exists m w t, r = _create_error_response m w t.
Proof.
  induction ls as [|l ls IH]; intros n self st r self' st'; cbn [run_lines].
  - discriminate.
  - destruct (loop_body self (await fired n st) l) as [s1 st1|y1 s1 st1|e s1 st1] eqn:B.
    + apply IH.
    + intros [= -> _ _]. eapply loop_body_yield_error, B.
    + discriminate.
Qed.

(** X9.  No ErrorResult carries an empty identifier.  Whatever the
    stream, when the value yielded is dumped with the default
    [ensure_ascii], as every error response is, its workflow_run_id and
    task_id are truthy: an identifier that is missing, null or empty is
    replaced by [unknown]. *)
Theorem error_result_identifiers_truthy
    (fired : nat -> bool) (self : SSEProcessor) (src : upstream) (r : json) :
  yielded (process_dify_stream fired self src) = [Dumps true r] ->
  exists o w t,
    r = JObject o /\
    dict_get o (u "workflow_run_id") = Some w /\ truthy w = true /\
    dict_get o (u "task_id") = Some t /\ truthy t = true.
Proof.
  assert (forall m w t,
            exists o w' t',
              _create_error_response m w t = JObject o /\
              dict_get o (u "workflow_run_id") = Some w' /\ truthy w' = true /\
              dict_get o (u "task_id") = Some t' /\ truthy t' = true) as K.
  { intros m w t. unfold _create_error_response. do 3 eexists.
    split; [reflexivity|].
    split; [reflexivity|]. split; [apply py_or_truthy; discriminate|].
    split; [reflexivity|]. apply py_or_truthy; discriminate. }
  unfold process_dify_stream, try_block.
  destruct (run_lines fired 0 self initial_locals (lines src))
    as [s1 st1|y1 s1 st1|e1 s1 st1] eqn:R.
  - destruct (finish src); cbn [yielded locals_after app]; intros [= <-]; apply K.
  - cbn [yielded]. intros [= ->].
    destruct (run_lines_yield_error _ _ _ _ _ _ _ _ R) as (m & w & t & ->). apply K.
  - cbn [yielded locals_after app]. intros [= <-]. apply K.
Qed.

Lemma error_result_identifiers_truthy_witness :
  yielded (process_dify_stream never_fires sse_processor
             (Samples.ends [Samples.empty_id_line]))
    = [Dumps true (_create_error_response
                     (JString (u "Stream ended without workflow completion"))
                     (JString []) JNull)] /\
  exists o w t,
    _create_error_response (JString (u "Stream ended without workflow completion"))
                           (JString []) JNull = JObject o /\
    dict_get o (u "workflow_run_id") = Some w /\ truthy w = true /\
    dict_get o (u "task_id") = Some t /\ truthy t = true.
Proof.
  split; [vm_compute; reflexivity|].
  apply (error_result_identifiers_truthy never_fires sse_processor
           (Samples.ends [Samples.empty_id_line])).
  vm_compute. reflexivity.
Defined.

(* ================================================================== *)
(** ** Extraction, and the keep-alive tasks *)

(** X10.  Extraction succeeds exactly when the data of the record
    decodes to an object, the data field of that object is an object or
    absent, the outputs field of the latter is an object or absent, and
    the second decoding of a result that is a string and not blank raises
    nothing but [JSONDecodeError].  In every other case it returns [None],
    and the loop goes on to the next line. *)
Theorem extract_workflow_result_succeeds_iff (ev : DifySSEEvent) :
  (exists r, _extract_workflow_result ev = Some r) <->
  (exists d ed od,
     parse_data ev = Ok (JObject d) /\
     dict_get_default d (u "data") (JObject []) = JObject ed /\
     dict_get_default ed (u "outputs") (JObject []) = JObject od /\
     (forall s e,
        dict_get od (u "result") = Some (JString s) ->
        nonempty (strip s) = true ->
        json_loads s = Raise e -> e = JSONDecodeError)).
Proof.
  unfold _extract_workflow_result. split.
  - intros [r X]. revert X.
    destruct (parse_data ev) as [v|e]; cbn [bind]; [|discriminate].
    destruct v; cbn [bind py_get]; try discriminate.
    destruct (dict_get_default d (u "data") (JObject [])) as [| | | | | | | |ed] eqn:D;
      cbn [bind py_get]; try discriminate.
    destruct (dict_get_default ed (u "outputs") (JObject []))
      as [| | | | | | | |od] eqn:O;
      cbn [bind py_get]; try discriminate.
    rewrite parse_result_rule. intros X.
    exists d, ed, od. split; [reflexivity|]. split; [exact D|]. split; [exact O|].
    intros s e R N J. rewrite R, N, J in X.
    destruct e; cbn in X; reflexivity || discriminate.
  - intros (d & ed & od & P & D & O & H).
    rewrite P. cbn [bind py_get]. rewrite D. cbn [bind py_get]. rewrite O.
    cbn [bind py_get]. rewrite parse_result_rule.
    destruct (dict_get od (u "result")) as [v|] eqn:R; [|eexists; reflexivity].
    destruct v; try (eexists; reflexivity).
    destruct (nonempty (strip s)) eqn:N; [|eexists; reflexivity].
    destruct (json_loads s) as [v|e] eqn:J; [eexists; reflexivity|].
    rewrite (H s e eq_refl N J). eexists; reflexivity.
Qed.

Lemma run_lines_tasks (fired : nat -> bool) (ls : list str) :
  forall n self st,
  let created c :=
    match c with
    | Next _ st' | YieldReturn _ _ st' | Escapes _ _ st' => tasks_created st'
    end in
  tasks_created st <= created (run_lines fired n self st ls)
  /\ created (run_lines fired n self st ls) <= tasks_created st + List.length ls.
Proof.
  induction ls as [|l ls IH]; intros n self st created; cbn [run_lines List.length].
  - subst created. cbn. lia.
  - pose proof (loop_body_task_count self (await fired n st) l) as T.
    destruct (await_ids fired n st) as (_ & _ & A). rewrite A in T.
    destruct (loop_body self (await fired n st) l) as [s1 st1|y s1 st1|e s1 st1].
    + specialize (IH (S n) s1 st1). cbn zeta in IH. fold created in IH.
      destruct T as [T | T]; lia.
    + subst created. cbn. lia.
    + subst created. cbn. lia.
Qed.

(** X11.  The keep-alive tasks of a run are few: besides the one created
    on entry, at most one task is created per line of the stream. *)
Theorem keepalive_tasks_bounded
    (fired : nat -> bool) (self : SSEProcessor) (src : upstream) :
  1 <= tasks_created (locals_after (process_dify_stream fired self src))
  /\ tasks_created (locals_after (process_dify_stream fired self src))
     <= 1 + List.length (lines src).
Proof.
  pose proof (run_lines_tasks fired (lines src) 0 self initial_locals) as T.
  cbn zeta in T. cbn [initial_locals tasks_created] in T.
  unfold process_dify_stream, try_block.
  destruct (run_lines fired 0 self initial_locals (lines src))
    as [s1 st1|y1 s1 st1|e1 s1 st1].
  - destruct (await_ids fired (List.length (lines src)) st1) as (_ & _ & A).
    destruct (finish src); cbn [locals_after]; rewrite A; exact T.
  - exact T.
  - exact T.
Qed.

(* ================================================================== *)
(** ** Failures of the request *)

Section TransportFailures.

Import DifyClient Transport.

Lemma reassemble_drain_chunks (chunks : list bytes) : forall buffer,
  reassemble buffer chunks =
  fst (drain_chunks buffer chunks) ++ yield_line (snd (drain_chunks buffer chunks)).
Proof.
  induction chunks as [|chunk cs IH]; intros buffer; cbn [reassemble drain_chunks].
  - reflexivity.
  - destruct chunk as [|x chunk']; [apply IH|].
    destruct (drain_lines _ _) as [ls b]. rewrite IH.
    destruct (drain_chunks b cs) as [ls' b']. cbn [fst snd].
    apply app_assoc.
Qed.

(** X12.  A refused request.  When the status of the response is not 200
    (and reading its body for the log line raises nothing), the client of
    the proxy receives exactly one ErrorResult, with no identifier, whose
    error is [Stream processing error: Dify API HTTP error: Dify API
    returned] followed by the status in decimal: the HTTPStatusError
    raised at line 93 is caught by the handler of line 128 of the same
    function and wrapped a second time by the processor. *)
Theorem refused_status_reported (fired : nat -> bool) (r : response) :
  status_code r <> 200%N ->
  error_text_raises r = None ->
  yielded (proxy_request fired (Responds r)) =
  [Samples.error_output
     (u "Stream processing error: Dify API HTTP error: Dify API returned "
        ++ decimal (status_code r))].
Proof.
  intros S E. unfold proxy_request, Transport.execute_workflow_stream.
  apply N.eqb_neq in S. rewrite S, E.
  unfold process_dify_stream, try_block.
  cbn [lines finish run_lines List.length yielded locals_after app].
  destruct (await_ids fired 0 initial_locals) as (-> & -> & _).
  reflexivity.
Qed.

Lemma refused_status_reported_witness :
  status_code MoreSamples.refused_503 <> 200%N /\
  error_text_raises MoreSamples.refused_503 = None /\
  yielded (proxy_request never_fires (Responds MoreSamples.refused_503)) =
  [Samples.error_output
     (u "Stream processing error: Dify API HTTP error: Dify API returned 503")].
Proof.
  split; [vm_compute; discriminate|]. split; [reflexivity|].
  exact (refused_status_reported never_fires MoreSamples.refused_503
           ltac:(vm_compute; discriminate) eq_refl).
Defined.

(** X13.  A body that breaks off.  When the response has status 200 and
    [aiter_bytes] raises after some chunks, the lines seen by the
    processor are those completed by a newline before the failure; if
    none of them made the loop yield, exactly one ErrorResult is yielded:
    its error is [Stream processing error: ] followed by the text of the
    handler that caught the failure, and it carries the identifiers
    accumulated from those lines. *)
Theorem body_failure_reported
    (fired : nat -> bool) (r : response) (e : httpx_exn)
    (self' : SSEProcessor) (st' : locals) :
  status_code r = 200%N ->
  body_failure r = Some e ->
  run_lines fired 0 sse_processor initial_locals
            (fst (drain_chunks [] (body_chunks r))) = Next self' st' ->
  yielded (proxy_request fired (Responds r)) =
  [Dumps true (_create_error_response
                 (JString (u "Stream processing error: " ++ reraised e))
                 (workflow_run_id st') (task_id st'))].
Proof.
  intros S F R. unfold proxy_request, Transport.execute_workflow_stream.
  rewrite S, F. cbn [N.eqb Pos.eqb].
  unfold process_dify_stream, try_block. cbn [lines finish]. rewrite R.
  cbn [yielded locals_after app exn_str].
  destruct (await_ids fired (List.length (fst (drain_chunks [] (body_chunks r)))) st')
    as (-> & -> & _).
  reflexivity.
Qed.

Lemma body_failure_reported_witness :
  status_code MoreSamples.broken_body = 200%N /\
  body_failure MoreSamples.broken_body = Some (TimeoutException (u "read timed out")) /\
  run_lines never_fires 0 sse_processor initial_locals
            (fst (drain_chunks [] (body_chunks MoreSamples.broken_body)))
    = Next sse_processor Samples.started_locals /\
  yielded (proxy_request never_fires (Responds MoreSamples.broken_body)) =
  [Dumps true (JObject [(u "workflow_run_id", JString (u "456"));
                        (u "task_id", JString (u "unknown"));
                        (u "status", JString (u "error"));
                        (u "error",
                          JString (u "Stream processing error: Dify API timeout: read timed out"));
                        (u "event_type", JString (u "error"))])].
Proof.
  split; [reflexivity|]. split; [reflexivity|]. split; [vm_compute; reflexivity|].
  exact (body_failure_reported never_fires MoreSamples.broken_body
           (TimeoutException (u "read timed out")) sse_processor Samples.started_locals
           eq_refl eq_refl ltac:(vm_compute; reflexivity)).
Defined.

(** X14.  A failure of the body costs at most one line.  The lines
    yielded when the body is delivered in full are those yielded when
    [aiter_bytes] raises after the same chunks, followed by the
    unterminated rest of the buffer if it is not blank: the flush of lines
    119-122 is all that a failure skips. *)
Theorem body_failure_loses_only_the_tail (chunks : list bytes) (e : httpx_exn) :
  exists tail,
    List.length tail <= 1 /\
    lines (Transport.execute_workflow_stream
             (Responds {| status_code := 200; body_chunks := chunks;
                          body_failure := None; error_text_raises := None |})) =
    lines (Transport.execute_workflow_stream
             (Responds {| status_code := 200; body_chunks := chunks;
                          body_failure := Some e; error_text_raises := None |}))
      ++ tail.
Proof.
  exists (yield_line (snd (drain_chunks [] chunks))). split.
  - unfold yield_line. destruct (nonempty _); cbn; lia.
  - cbn. unfold DifyClient.execute_workflow_stream.
    apply reassemble_drain_chunks.
Qed.

End TransportFailures.

(* ================================================================== *)
(** ** An SSE error event with a payload that is no JSON *)

Lemma update_ids_raw (ev : DifySSEEvent) (st : locals) :
  json_loads (data ev) = Raise JSONDecodeError -> same_ids (update_ids ev st) st.
Proof.
  intros J. rewrite (update_ids_object ev st (parse_data_raw ev J)).
  split; reflexivity.
Qed.

(** X15.  When the lines before it were all consumed without a yield, a
    record whose SSE event type is error and whose payload [json.loads]
    refuses with [JSONDecodeError] ends the run with exactly one
    ErrorResult: its error is the default text [Unknown error from Dify
    API] (the payload itself is not reported) and its identifiers are those
    accumulated so far. *)
Theorem sse_error_event_plain_payload
    (fired : nat -> bool) (self : SSEProcessor) (pre : list str) (line : str)
    (post : list str) (fin : ending)
    (self1 : SSEProcessor) (st1 : locals) (self2 : SSEProcessor)
    (ev : DifySSEEvent) :
  run_lines fired 0 self initial_locals pre = Next self1 st1 ->
  _parse_sse_line self1 line = (self2, Some ev) ->
  event ev = u "error" ->
  json_loads (data ev) = Raise JSONDecodeError ->
  yielded (process_dify_stream fired self
             {| lines := pre ++ line :: post; finish := fin |}) =
  [Dumps true (_create_error_response
                 (JString (u "Unknown error from Dify API"))
                 (workflow_run_id st1) (task_id st1))].
Proof.
  intros R L T J.
  unfold process_dify_stream, try_block. cbn [lines finish].
  rewrite run_lines_app, R. cbn [run_lines]. unfold loop_body. rewrite L.
  unfold is_error_event. rewrite T, str_eqb_refl.
  unfold error_event_response. rewrite (parse_data_raw ev J). cbn [bind py_get].
  set (st0 := if done (keepalive_task (await fired (0 + List.length pre) st1))
              then await fired (0 + List.length pre) st1
              else set_task (await fired (0 + List.length pre) st1)
                            (cancel (keepalive_task (await fired (0 + List.length pre) st1)))).
  assert (same_ids (update_ids ev st0) st1) as [W I].
  { eapply same_ids_trans; [apply (update_ids_raw ev st0 J)|].
    subst st0. destruct (done _).
    - apply same_ids_await.
    - eapply same_ids_trans; [apply same_ids_set_task | apply same_ids_await]. }
  cbn [yielded]. rewrite W, I. reflexivity.
Qed.

Lemma sse_error_event_plain_payload_witness :
  run_lines never_fires 0 sse_processor initial_locals [u "event: error"]
    = Next MoreSamples.error_typed
        {| workflow_run_id := JNull; task_id := JNull;
           keepalive_task := Cancelling; tasks_created := 1 |} /\
  _parse_sse_line MoreSamples.error_typed MoreSamples.plain_error_line
    = (MoreSamples.error_typed, Some MoreSamples.plain_error_event) /\
  event MoreSamples.plain_error_event = u "error" /\
  json_loads (data MoreSamples.plain_error_event) = Raise JSONDecodeError /\
  yielded (process_dify_stream never_fires sse_processor
             {| lines := [u "event: error"] ++ MoreSamples.plain_error_line :: [];
                finish := EndOfStream |}) =
  [Samples.error_output (u "Unknown error from Dify API")].
Proof.
  split; [vm_compute; reflexivity|]. split; [vm_compute; reflexivity|].
  split; [reflexivity|]. split; [vm_compute; reflexivity|].
  exact (sse_error_event_plain_payload never_fires sse_processor [u "event: error"]
           MoreSamples.plain_error_line [] EndOfStream MoreSamples.error_typed
           {| workflow_run_id := JNull; task_id := JNull;
              keepalive_task := Cancelling; tasks_created := 1 |}
           MoreSamples.error_typed MoreSamples.plain_error_event
           ltac:(vm_compute; reflexivity) ltac:(vm_compute; reflexivity)
           eq_refl ltac:(vm_compute; reflexivity)).
Defined.

(** The same record with a payload of 4301 digits: reading the error
    text raises [ValueError], the handler of lines 214-216 skips the record,
    and the run goes on to the end of the stream. *)
Example sse_error_event_long_integer_skipped :
  yielded (process_dify_stream never_fires sse_processor
             (Samples.ends [u "event: error"; u "data: " ++ Samples.long_integer]))
  = [Samples.error_output (u "Stream ended without workflow completion")].
Proof. vm_compute. reflexivity. Qed.

(** X16.  The error check comes first.  When the lines before it were
    all consumed without a yield, a record whose SSE event type is error
    and whose data decodes to an object with a data field that is an
    object or absent ends the run with an ErrorResult, whatever the event
    field of that object says, workflow_finished included: such a record
    is never extracted as a result. *)
Theorem sse_error_type_takes_precedence
    (fired : nat -> bool) (self : SSEProcessor) (pre : list str) (line : str)
    (post : list str) (fin : ending)
    (self1 : SSEProcessor) (st1 : locals) (self2 : SSEProcessor)
    (ev : DifySSEEvent) (d ed : dict) :
  run_lines fired 0 self initial_locals pre = Next self1 st1 ->
  _parse_sse_line self1 line = (self2, Some ev) ->
  event ev = u "error" ->
  parse_data ev = Ok (JObject d) ->
  dict_get_default d (u "data") (JObject []) = JObject ed ->
  yielded (process_dify_stream fired self
             {| lines := pre ++ line :: post; finish := fin |}) =
  [Dumps true (_create_error_response
     (dict_get_default ed (u "error") (JString (u "Unknown error from Dify API")))
     (dict_get_default d (u "workflow_run_id") (workflow_run_id st1))
     (dict_get_default d (u "task_id") (task_id st1)))].
Proof.
  intros R L T P D.
  unfold process_dify_stream, try_block. cbn [lines finish].
  rewrite run_lines_app, R. cbn [run_lines]. unfold loop_body. rewrite L.
  unfold is_error_event. rewrite T, str_eqb_refl.
  rewrite (update_ids_object ev _ P).
  unfold error_event_response. rewrite P. cbn [bind py_get]. rewrite D.
  cbn [bind py_get yielded].
  destruct (await_ids fired (0 + List.length pre) st1) as (W & I & _).
  destruct (done (keepalive_task (await fired (0 + List.length pre) st1)));
    cbn [set_ids set_task workflow_run_id task_id]; rewrite W, I; reflexivity.
Qed.

Lemma sse_error_type_takes_precedence_witness :
  run_lines never_fires 0 sse_processor initial_locals [u "event: error"]
    = Next MoreSamples.error_typed
        {| workflow_run_id := JNull; task_id := JNull;
           keepalive_task := Cancelling; tasks_created := 1 |} /\
  _parse_sse_line MoreSamples.error_typed Samples.anonymous_finished_line
    = (MoreSamples.error_typed,
       Some {| event := u "error"; data := data Samples.anonymous_finished_event |}) /\
  parse_data {| event := u "error"; data := data Samples.anonymous_finished_event |}
    = Ok (JObject Samples.anonymous_finished_envelope) /\
  yielded (process_dify_stream never_fires sse_processor
             {| lines := [u "event: error"] ++ Samples.anonymous_finished_line :: [];
                finish := EndOfStream |}) =
  [Samples.error_output (u "Unknown error from Dify API")].
Proof.
  split; [vm_compute; reflexivity|]. split; [vm_compute; reflexivity|].
  split; [vm_compute; reflexivity|].
  exact (sse_error_type_takes_precedence never_fires sse_processor [u "event: error"]
           Samples.anonymous_finished_line [] EndOfStream MoreSamples.error_typed
           {| workflow_run_id := JNull; task_id := JNull;
              keepalive_task := Cancelling; tasks_created := 1 |}
           MoreSamples.error_typed
           {| event := u "error"; data := data Samples.anonymous_finished_event |}
           Samples.anonymous_finished_envelope
           [(u "status", JString (u "succeeded"));
            (u "outputs", JObject [(u "result", JString (u "done"))])]
           ltac:(vm_compute; reflexivity) ltac:(vm_compute; reflexivity)
           eq_refl ltac:(vm_compute; reflexivity) ltac:(vm_compute; reflexivity)).
Defined.

(* ================================================================== *)
(** ** WorkflowFinishedEvent.extract_result *)

(** X17.  For a model whose data holds a data object: without an outputs
    key the method returns [None]; with an outputs object it returns, for
    a result that is a string, its decoding, or the object with the single
    key raw_result holding the string when the decoder refuses it with
    [JSONDecodeError], blank and empty strings included; for a result that
    is no string, the value itself; and when outputs has no result, the
    object with raw_result holding the empty string.  Another exception of
    the decoder (a string beyond the interpreter's limits) leaves the
    method. *)
Theorem extract_result_rule (self_data inner od : dict) :
  dict_get self_data (u "data") = Some (JObject inner) ->
  (dict_get inner (u "outputs") = None -> extract_result self_data = Ok JNull) /\
  (dict_get inner (u "outputs") = Some (JObject od) ->
   extract_result self_data =
   match dict_get od (u "result") with
   | Some (JString s) =>
       match json_loads s with
       | Ok v => Ok v
       | Raise JSONDecodeError => Ok (JObject [(u "raw_result", JString s)])
       | Raise e => Raise e
       end
   | Some v => Ok v
   | None => Ok (JObject [(u "raw_result", JString [])])
   end).
Proof.
  intros D. unfold extract_result. rewrite D. cbn [py_in bind]. split.
  - intros ->. reflexivity.
  - intros O. rewrite O. cbn [bind py_getitem]. rewrite D. cbn [bind py_getitem].
    rewrite O. cbn [bind py_get]. unfold dict_get_default.
    destruct (dict_get od (u "result")) as [v|]; [|reflexivity].
    destruct v; reflexivity.
Qed.

Lemma extract_result_rule_witness :
  dict_get MoreSamples.nested_data (u "data") = Some (JObject MoreSamples.nested_inner) /\
  dict_get MoreSamples.nested_inner (u "outputs")
    = Some (JObject MoreSamples.nested_outputs) /\
  extract_result MoreSamples.nested_data
    = Ok (JObject [(u "raw_result", JString (u " "))]).
Proof.
  split; [reflexivity|]. split; [reflexivity|].
  exact (proj2 (extract_result_rule MoreSamples.nested_data MoreSamples.nested_inner
                  MoreSamples.nested_outputs eq_refl) eq_refl).
Defined.

(* ================================================================== *)
(** ** The health route *)

(** X18.  The /health route never answers unhealthy.
    [DifyClient.health_check] swallows whatever the HEAD request raises,
    so the handler of the route is never entered: the status is healthy
    exactly when the request returned with a status below 500 (a 404 or a
    401 counts as healthy), and degraded otherwise, in which case the
    dify_api service is reported unhealthy. *)
Theorem health_route_status (head : option N) :
  exists o,
    health_route (Ok (Transport.health_check head)) = JObject o /\
    (dict_get o (u "status") = Some (JString (u "healthy")) <->
     exists status, head = Some status /\ (status < 500)%N) /\
    (dict_get o (u "status") = Some (JString (u "healthy")) \/
     dict_get o (u "status") = Some (JString (u "degraded")) /\
     py_get (dict_get_default o (u "services") JNull) (u "dify_api") JNull
       = Ok (JString (u "unhealthy"))).
Proof.
  unfold health_route, Transport.health_check.
  destruct head as [status|].
  - destruct (N.ltb_spec status 500) as [L|L]; eexists; (split; [reflexivity|]); split.
    + split; [intros _; exists status; auto | reflexivity].
    + left. reflexivity.
    + split; [discriminate | intros (s & [= <-] & H); lia].
    + right. split; reflexivity.
  - eexists. split; [reflexivity|]. split.
    + split; [discriminate | intros (s & [=] & _)].
    + right. split; reflexivity.
Qed.

(* ================================================================== *)
(** ** Requests on the shared instance *)

Lemma same_control_outcome (a b : control) : same_control a b -> same_outcome a b.
Proof.
  destruct a, b; cbn; try tauto.
Qed.

Lemma run_lines_announced (f1 f2 : nat -> bool) (self1 self2 : SSEProcessor)
    (ls : list str) :
  announces_event_first ls = true ->
  forall n1 n2 a b,
  same_ids a b ->
  same_outcome (run_lines f1 n1 self1 a ls) (run_lines f2 n2 self2 b ls).
Proof.
  unfold announces_event_first.
  induction ls as [|l ls IH]; intros H n1 n2 a b S; cbn [run_lines].
  - exact S.
  - cbn [filter] in H.
    assert (same_ids (await f1 n1 a) (await f2 n2 b)) as S1.
    { eapply same_ids_trans; [apply same_ids_await|].
      eapply same_ids_trans; [exact S|]. apply same_ids_sym, same_ids_await. }
    destruct (is_ignored l) eqn:I; cbn [negb] in H.
    + destruct (loop_body_ignored self1 (await f1 n1 a) l I) as (a0 & -> & A0).
      destruct (loop_body_ignored self2 (await f2 n2 b) l I) as (b0 & -> & B0).
      apply IH; [exact H|].
      eapply same_ids_trans; [exact A0|].
      eapply same_ids_trans; [exact S1|]. apply same_ids_sym, B0.
    + destruct (not_ignored_parse self1 l I) as [[_ P1] | (E & _)]; [|congruence].
      destruct (not_ignored_parse self2 l I) as [[_ P2] | (E & _)]; [|congruence].
      unfold loop_body. rewrite P1, P2.
      apply same_control_outcome, run_lines_same.
      destruct (done (keepalive_task (await f1 n1 a))),
               (done (keepalive_task (await f2 n2 b)));
        destruct S1; split; assumption.
Qed.

(** X20.  Requests that announce their event type do not see each other.
    When the first line of a stream that the parser does not pass over is
    an event line, the value yielded for the stream is the same whatever
    state earlier requests left in the shared instance. *)
Theorem announced_stream_ignores_instance
    (f1 f2 : nat -> bool) (self1 self2 : SSEProcessor) (ls : list str) (fin : ending) :
  announces_event_first ls = true ->
  yielded (process_dify_stream f1 self1 {| lines := ls; finish := fin |})
  = yielded (process_dify_stream f2 self2 {| lines := ls; finish := fin |}).
Proof.
  intros H.
  pose proof (run_lines_announced f1 f2 self1 self2 ls H 0 0
                initial_locals initial_locals (same_ids_refl _)) as R.
  unfold process_dify_stream, try_block. cbn [lines finish].
  destruct (run_lines f1 0 self1 initial_locals ls) as [s1 a|y1 s1 a|e1 s1 a],
           (run_lines f2 0 self2 initial_locals ls) as [s2 b|y2 s2 b|e2 s2 b];
    cbn in R; try contradiction.
  - assert (same_ids (await f1 (List.length ls) a) (await f2 (List.length ls) b))
      as [W T].
    { eapply same_ids_trans; [apply same_ids_await|].
      eapply same_ids_trans; [exact R|]. apply same_ids_sym, same_ids_await. }
    destruct fin; cbn [yielded locals_after app]; rewrite W, T; reflexivity.
  - destruct R as (<- & _). reflexivity.
  - destruct R as (<- & [W T]). cbn [yielded locals_after app].
    rewrite W, T. reflexivity.
Qed.

Lemma announced_stream_ignores_instance_witness :
  announces_event_first [u ""; u "event: workflow_started"; Samples.started_line;
                         Samples.finished_line] = true /\
  yielded (process_dify_stream never_fires MoreSamples.error_typed
             {| lines := [u ""; u "event: workflow_started"; Samples.started_line;
                          Samples.finished_line];
                finish := EndOfStream |})
  = yielded (process_dify_stream never_fires sse_processor
               {| lines := [u ""; u "event: workflow_started"; Samples.started_line;
                            Samples.finished_line];
                  finish := EndOfStream |}).
Proof.
  split; [vm_compute; reflexivity|].
  apply (announced_stream_ignores_instance never_fires never_fires
           MoreSamples.error_typed sse_processor
           [u ""; u "event: workflow_started"; Samples.started_line;
            Samples.finished_line] EndOfStream).
  vm_compute. reflexivity.
Defined.

(** A record whose data decodes to a list that holds the very text
    workflow_run_id leaves the identifiers alone: the membership test
    succeeds, the subscript raises, and the handler swallows it. *)
Lemma update_ids_not_object_witness :
  parse_data MoreSamples.list_payload_event
    = Ok (JArray [JString (u "workflow_run_id"); JString (u "task_id")]) /\
  (forall d, JArray [JString (u "workflow_run_id"); JString (u "task_id")] <> JObject d) /\
  update_ids MoreSamples.list_payload_event initial_locals = initial_locals.
Proof.
  split; [vm_compute; reflexivity|]. split; [discriminate|].
  apply (@update_ids_not_object MoreSamples.list_payload_event
           (JArray [JString (u "workflow_run_id"); JString (u "task_id")])
           initial_locals);
    [vm_compute; reflexivity | discriminate].
Defined.

Lemma rechunking_ascii_witness :
  List.concat [list_byte_of_string "data: x"; [x0a]]
    = List.concat [list_byte_of_string "da"; list_byte_of_string "ta: x"; []; [x0a]] /\
  forallb DifyClient.ascii_chunk [list_byte_of_string "data: x"; [x0a]] = true /\
  forallb DifyClient.ascii_chunk
    [list_byte_of_string "da"; list_byte_of_string "ta: x"; []; [x0a]] = true /\
  DifyClient.execute_workflow_stream [list_byte_of_string "data: x"; [x0a]]
    = DifyClient.execute_workflow_stream
        [list_byte_of_string "da"; list_byte_of_string "ta: x"; []; [x0a]].
Proof.
  split; [reflexivity|]. split; [vm_compute; reflexivity|].
  split; [vm_compute; reflexivity|].
  exact (proj1 (@rechunking_ascii never_fires
                  [list_byte_of_string "data: x"; [x0a]]
                  [list_byte_of_string "da"; list_byte_of_string "ta: x"; []; [x0a]]
                  eq_refl ltac:(vm_compute; reflexivity) ltac:(vm_compute; reflexivity))).
Defined.
